(** * System resource monitor: the sampling-and-history core

    A shallow embedding of [system_monitor.py] (the [SystemMonitor] class and
    [format_bytes]), of the statistics table of [pdf_report.py] and of the
    start/stop control of [monitor_ui.py].

    Numbers.  Python floats are idealised as rationals ([Q]): every rate,
    percentage and clock reading is an exact rational, compared with [==].
    Cumulative byte counters are Python ints and are kept in [Z]. *)

From Stdlib Require Import ZArith QArith Qabs Qround String Ascii List Lia.
From Stdlib Require Import DecimalString Lqa Sorted.
From stdpp Require Import gmap strings list fin_maps.

Local Open Scope string_scope.
Local Open Scope Z_scope.

(** * Number formatting: the format spec [:.2f] *)

Module Fmt.

(** Decimal digits of a non-negative integer. *)
Definition digits (n : Z) : string :=
  NilZero.string_of_uint (N.to_uint (Z.to_N n)).

Definition two_digits (n : Z) : string :=
  if n <? 10 then "0" ++ digits n else digits n.

(** Nearest integer to a non-negative rational, ties to the even one. *)
Definition round_half_even (q : Q) : Z :=
  let f := Qfloor q in
  let r := (q - inject_Z f)%Q in
  match (r ?= 1 # 2)%Q with
  | Lt => f
  | Gt => f + 1
  | Eq => if Z.even f then f else f + 1
  end.

(** [hundredths n] prints the integer [n >= 0] of hundredths as [i.ff]. *)
Definition hundredths (n : Z) : string :=
  digits (n / 100) ++ "." ++ two_digits (n mod 100).

(** [f"{q:.2f}"] *)
Definition fmt2 (q : Q) : string :=
  let body := hundredths (round_half_even (Qabs q * 100)) in
  if Qlt_le_dec q 0 then "-" ++ body else body.

(** [f"{math.sqrt(q):.2f}"] for [q >= 0]: the integer nearest to
    [sqrt (10000 * q)], found from the integer square root. *)
Definition fmt2_sqrt (q : Q) : string :=
  let r := (q * 10000)%Q in
  let k := Z.sqrt (Qfloor r) in
  let mid := (inject_Z (k * k + k) + (1 # 4))%Q in
  hundredths
    match (r ?= mid)%Q with
    | Lt => k
    | Gt => k + 1
    | Eq => if Z.even k then k else k + 1
    end.

End Fmt.

(** * [format_bytes] *)

(** The body of the [for unit in [...]] loop, by recursion on the units left. *)
Fixpoint format_bytes_loop (units : list string) (bytes_value : Q) : string :=
  match units with
  | [] => Fmt.fmt2 bytes_value ++ " PB"
  | unit :: rest =>
      if Qlt_le_dec bytes_value 1024
      then Fmt.fmt2 bytes_value ++ " " ++ unit
      else format_bytes_loop rest (bytes_value / 1024)
  end.

Definition format_bytes (bytes_value : Q) : string :=
  format_bytes_loop ["B"; "KB"; "MB"; "GB"; "TB"] bytes_value.

(** * Python control flow *)

(** An exception object: its class and its [str()]. *)
Record exn := Exn { exn_class : string; exn_str : string }.

Inductive result (A : Type) : Type :=
  | Return (a : A)
  | Raise (e : exn).
Arguments Return {A} a.
Arguments Raise {A} e.

(** A method of an object of state [S].  What a method has written to the
    object before it raises stays written. *)
Definition M (S A : Type) : Type := S -> result A * S.

#[global] Instance M_ret {S} : MRet (M S) := fun A a s => (Return a, s).
#[global] Instance M_bind {S} : MBind (M S) := fun A B f m s =>
  match m s with
  | (Return a, s') => f a s'
  | (Raise e, s') => (Raise e, s')
  end.

(** The outcome of a call into the operating system (psutil, the clock, a
    subprocess), which does not touch the object. *)
Definition query {S A} (r : result A) : M S A := fun s => (r, s).
Definition get_self {S} : M S S := fun s => (Return s, s).
Definition set_self {S} (f : S -> S) : M S unit := fun s => (Return tt, f s).
Definition raise {S A} (e : exn) : M S A := fun s => (Raise e, s).

Definition returns {A} (r : result A) : Prop := exists a, r = Return a.

(** * Rationals as booleans *)

Definition Qltb (x y : Q) : bool := negb (Qle_bool y x).

(** [sum(values)] *)
Definition Qsum (l : list Q) : Q := fold_left Qplus l 0%Q.

(** * What psutil returns *)

Record sdiskusage := {
  du_total : Z; du_used : Z; du_free : Z; du_percent : Q }.
Record sdiskio := { read_bytes : Z; write_bytes : Z }.
Record snetio := {
  bytes_sent : Z; bytes_recv : Z; packets_sent : Z; packets_recv : Z }.
Record svmem := {
  vm_total : Z; vm_available : Z; vm_percent : Q; vm_used : Z }.
Record sswap := { sw_total : Z; sw_used : Z; sw_percent : Q }.
Record CompletedProcess := { returncode : Z; stdout : string }.

(** The answers of the operating system during one sampling pass, in the
    order [collect_snapshot] asks for them.  [None] is Python's [None]. *)
Record probe := {
  os_now : Q;                                   (* datetime.now() *)
  os_time : Q;                                  (* time.time(), collect_snapshot *)
  os_cpu_percent : result Q;                    (* cpu_percent(interval=0.1) *)
  os_cpu_count : result Z;
  os_cpu_freq : result (option Q);              (* cpu_freq(), its .current *)
  os_per_cpu : result (list Q);
  os_virtual_memory : result svmem;
  os_swap_memory : result sswap;
  os_disk_usage : result sdiskusage;
  os_disk_io_counters : result (option sdiskio);
  os_time_disk : Q;                             (* time.time(), get_disk_info *)
  os_net_io_counters : result (option snetio);
  os_time_net : Q;                              (* time.time(), get_network_info *)
  os_has_sensors : bool;                        (* hasattr(psutil, ...) *)
  os_sensors_temperatures : result (list (string * list Q));
  os_nvidia_smi : result CompletedProcess       (* subprocess.run([...]) *)
}.

(** * Strings: [str.strip], [str.split] and [float] *)

Module Str.

(** ASCII characters for which [str.isspace] holds. *)
Definition isspace (c : ascii) : bool :=
  let n := N_of_ascii c in
  ((9 <=? n) && (n <=? 13) || (28 <=? n) && (n <=? 32))%N.

Fixpoint lstrip (s : string) : string :=
  match s with
  | String c s' => if isspace c then lstrip s' else s
  | EmptyString => EmptyString
  end.

Fixpoint rstrip (s : string) : string :=
  match s with
  | String c s' =>
      match rstrip s' with
      | EmptyString => if isspace c then EmptyString else String c EmptyString
      | r => String c r
      end
  | EmptyString => EmptyString
  end.

Definition strip (s : string) : string := rstrip (lstrip s).

(** [s.split(sep)] for a non-empty [sep], scanning left to right: [cur] is
    the piece being read and [skip] the number of characters of a matched
    separator still to pass over. *)
Fixpoint split_from (sep : string) (skip : nat) (cur : string) (s : string)
  : list string :=
  match s with
  | EmptyString => [cur]
  | String c s' =>
      match skip with
      | S k => split_from sep k cur s'
      | O =>
          if String.prefix sep s
          then cur :: split_from sep (String.length sep - 1) EmptyString s'
          else split_from sep 0 (cur ++ String c EmptyString) s'
      end
  end.

Definition split (sep s : string) : list string := split_from sep 0 EmptyString s.

Definition digit (c : ascii) : option Z :=
  let n := Z.of_N (N_of_ascii c) in
  if (48 <=? n) && (n <=? 57) then Some (n - 48) else None.

(** Digits after the exponent mark; [seen] tells whether one was read. *)
Fixpoint exponent (s : string) (e : Z) (seen : bool) : option Z :=
  match s with
  | EmptyString => if seen then Some e else None
  | String c s' =>
      match digit c with
      | Some d => exponent s' (10 * e + d) true
      | None => None
      end
  end.

Definition signed_exponent (s : string) : option Z :=
  match s with
  | String "+" s' => exponent s' 0 false
  | String "-" s' => Z.opp <$> exponent s' 0 false
  | _ => exponent s 0 false
  end.

Definition scale (q : Q) (e : Z) : Q := (q * Qpower 10 e)%Q.

(** Digits after the decimal point: [num / den] is the value read so far. *)
Fixpoint fraction (s : string) (num : Z) (den : positive) (seen : bool)
  : option Q :=
  match s with
  | EmptyString => if seen then Some (num # den) else None
  | String c s' =>
      match digit c with
      | Some d => fraction s' (10 * num + d) (10 * den) true
      | None =>
          if seen && ((c =? "e")%char || (c =? "E")%char)
          then scale (num # den) <$> signed_exponent s'
          else None
      end
  end.

Fixpoint mantissa (s : string) (num : Z) (seen : bool) : option Q :=
  match s with
  | EmptyString => if seen then Some (num # 1) else None
  | String c s' =>
      match digit c with
      | Some d => mantissa s' (10 * num + d) true
      | None =>
          if (c =? ".")%char then fraction s' num 1 seen
          else if seen && ((c =? "e")%char || (c =? "E")%char)
          then scale (num # 1) <$> signed_exponent s'
          else None
      end
  end.

(** [float(s)] on decimal literals: surrounding white space, a sign, digits
    with an optional point and an optional exponent.  [None] stands for
    [ValueError].  The spellings of infinity and of not-a-number, which have
    no rational value, and digit-group underscores are not read. *)
Definition float (s : string) : option Q :=
  match strip s with
  | String "+" s' => mantissa s' 0 false
  | String "-" s' => Qopp <$> mantissa s' 0 false
  | s' => mantissa s' 0 false
  end.

End Str.

(** * [class SystemMonitor] *)

(** The dictionaries the [get_*_info] methods return. *)
Record cpu_info := {
  cpu_percent : Q; cpu_count : Z; cpu_frequency : Q; cpu_per_cpu : list Q }.
Record memory_info := {
  mem_percent : Q; mem_total : Z; mem_available : Z; mem_used : Z;
  mem_swap_percent : Q; mem_swap_total : Z; mem_swap_used : Z }.
Record disk_info := {
  disk_percent : Q; disk_total : Z; disk_used : Z; disk_free : Z;
  read_speed : Q; write_speed : Q }.
Record network_info := {
  net_bytes_sent : Z; net_bytes_recv : Z; sent_speed : Q; recv_speed : Q;
  net_packets_sent : Z; net_packets_recv : Z }.
Record gpu_info := {
  available : bool; usage : Q; memory : Q; temperature : Q }.

(** A value of the temperature dictionary: the list of a sensor group, or
    the text stored under the key ['error']. *)
Inductive temp_value :=
  | TList (values : list Q)
  | TStr (text : string).

(** The temperature dictionary, in insertion order. *)
Definition temps_dict := list (string * temp_value).

Record snapshot := {
  snap_timestamp : Q; snap_elapsed_time : Q;
  snap_cpu : cpu_info; snap_memory : memory_info; snap_disk : disk_info;
  snap_network : network_info; snap_temperature : temps_dict;
  snap_gpu : gpu_info }.

Record SystemMonitor := {
  history : gmap string (list Q);
  start_time : Q;
  _prev_net_io : option snetio;
  _prev_disk_io : option sdiskio;
  _prev_time : Q }.

Definition set_history (f : gmap string (list Q) -> gmap string (list Q))
  (self : SystemMonitor) : SystemMonitor :=
  {| history := f (history self); start_time := start_time self;
     _prev_net_io := _prev_net_io self; _prev_disk_io := _prev_disk_io self;
     _prev_time := _prev_time self |}.
Definition set_start_time (t : Q) (self : SystemMonitor) : SystemMonitor :=
  {| history := history self; start_time := t;
     _prev_net_io := _prev_net_io self; _prev_disk_io := _prev_disk_io self;
     _prev_time := _prev_time self |}.
Definition set_prev_net_io (io : option snetio) (self : SystemMonitor)
  : SystemMonitor :=
  {| history := history self; start_time := start_time self;
     _prev_net_io := io; _prev_disk_io := _prev_disk_io self;
     _prev_time := _prev_time self |}.
Definition set_prev_disk_io (io : option sdiskio) (self : SystemMonitor)
  : SystemMonitor :=
  {| history := history self; start_time := start_time self;
     _prev_net_io := _prev_net_io self; _prev_disk_io := io;
     _prev_time := _prev_time self |}.
Definition set_prev_time (t : Q) (self : SystemMonitor) : SystemMonitor :=
  {| history := history self; start_time := start_time self;
     _prev_net_io := _prev_net_io self; _prev_disk_io := _prev_disk_io self;
     _prev_time := t |}.

(** The keys of [self.history]. *)
Definition channels : list string :=
  ["timestamps"; "cpu_percent"; "memory_percent"; "disk_read"; "disk_write";
   "net_sent"; "net_recv"; "temperatures"; "gpu_usage"].

(** [__init__]: the empty history, and the first reading of the clock and of
    the network and disk counters. *)
Definition SystemMonitor_init (t_start : Q) (net_io : option snetio)
  (disk_io : option sdiskio) (t_prev : Q) : SystemMonitor :=
  {| history := list_to_map ((fun k => (k, [])) <$> channels);
     start_time := t_start;
     _prev_net_io := net_io;
     _prev_disk_io := disk_io;
     _prev_time := t_prev |}.

Definition get_cpu_info (os : probe) : M SystemMonitor cpu_info :=
  cpu_percent ← query (os_cpu_percent os);
  cpu_count ← query (os_cpu_count os);
  cpu_freq ← query (os_cpu_freq os);
  per_cpu ← query (os_per_cpu os);
  mret {| cpu_percent := cpu_percent;
          cpu_count := cpu_count;
          cpu_frequency := match cpu_freq with Some f => f | None => 0%Q end;
          cpu_per_cpu := per_cpu |}.

Definition get_memory_info (os : probe) : M SystemMonitor memory_info :=
  memory ← query (os_virtual_memory os);
  swap ← query (os_swap_memory os);
  mret {| mem_percent := vm_percent memory;
          mem_total := vm_total memory;
          mem_available := vm_available memory;
          mem_used := vm_used memory;
          mem_swap_percent := sw_percent swap;
          mem_swap_total := sw_total swap;
          mem_swap_used := sw_used swap |}.

(** [(curr - prev) / time_delta], an int difference over a float. *)
Definition per_second (curr prev : Z) (time_delta : Q) : Q :=
  (inject_Z (curr - prev) / time_delta)%Q.

(** The [if time_delta > 0 and disk_io and self._prev_disk_io] of
    [get_disk_info]: the pair of the read and the write speed. *)
Definition disk_speeds (time_delta : Q) (disk_io prev : option sdiskio)
  : Q * Q :=
  match Qltb 0 time_delta, disk_io, prev with
  | true, Some io, Some prev =>
      (per_second (read_bytes io) (read_bytes prev) time_delta,
       per_second (write_bytes io) (write_bytes prev) time_delta)
  | _, _, _ => (0%Q, 0%Q)
  end.

Definition get_disk_info (os : probe) : M SystemMonitor disk_info :=
  disk_usage ← query (os_disk_usage os);
  disk_io ← query (os_disk_io_counters os);
  self ← get_self;
  let current_time := os_time_disk os in
  let time_delta := (current_time - _prev_time self)%Q in
  let speeds := disk_speeds time_delta disk_io (_prev_disk_io self) in
  _ ← match disk_io with
      | Some io => set_self (set_prev_disk_io (Some io))
      | None => mret tt
      end;
  mret {| disk_percent := du_percent disk_usage;
          disk_total := du_total disk_usage;
          disk_used := du_used disk_usage;
          disk_free := du_free disk_usage;
          read_speed := fst speeds;
          write_speed := snd speeds |}.

(** Reading an attribute of a counters tuple that may be [None]. *)
Definition attributes {S A} (o : option A) : M S A :=
  match o with
  | Some a => mret a
  | None =>
      raise (Exn "AttributeError" "'NoneType' object has no attribute")
  end.

Definition get_network_info (os : probe) : M SystemMonitor network_info :=
  net_io ← query (os_net_io_counters os);
  self ← get_self;
  let current_time := os_time_net os in
  let time_delta := (current_time - _prev_time self)%Q in
  speeds ←
    (if Qltb 0 time_delta then
       io ← attributes net_io;
       prev ← attributes (_prev_net_io self);
       mret (per_second (bytes_sent io) (bytes_sent prev) time_delta,
             per_second (bytes_recv io) (bytes_recv prev) time_delta)
     else mret (0%Q, 0%Q));
  _ ← set_self (set_prev_net_io net_io);
  _ ← set_self (set_prev_time current_time);
  io ← attributes net_io;
  mret {| net_bytes_sent := bytes_sent io;
          net_bytes_recv := bytes_recv io;
          sent_speed := fst speeds;
          recv_speed := snd speeds;
          net_packets_sent := packets_sent io;
          net_packets_recv := packets_recv io |}.

(** [d[key] = value] on a dictionary kept in insertion order. *)
Fixpoint dict_set {V} (key : string) (value : V) (d : list (string * V))
  : list (string * V) :=
  match d with
  | [] => [(key, value)]
  | (k, v) :: d' =>
      if String.eqb k key then (k, value) :: d'
      else (k, v) :: dict_set key value d'
  end.

Definition dict_has {V} (key : string) (d : list (string * V)) : bool :=
  existsb (fun kv => String.eqb (fst kv) key) d.

(** The exception can only come from the call [sensors_temperatures()], made
    while [temps] is still empty. *)
Definition get_temperature_info (os : probe) : temps_dict :=
  if os_has_sensors os then
    match os_sensors_temperatures os with
    | Return sensors =>
        fold_left
          (fun temps entry =>
             match snd entry with
             | [] => temps
             | entries => dict_set (fst entry) (TList entries) temps
             end)
          sensors []
    | Raise e => [("error", TStr (exn_str e))]
    end
  else [].

Section Gpu.

(** The builtin [float] and the run of [nvidia-smi]. *)
Variable float : string -> option Q.

Definition gpu_unavailable : gpu_info :=
  {| available := false; usage := 0; memory := 0; temperature := 0 |}.

(** The assignments made after [len(values) >= 3]; a [ValueError] of
    [float] leaves the [try] block with what was assigned before it. *)
Definition gpu_parse (values : list string) : gpu_info :=
  let g0 := {| available := true; usage := 0; memory := 0; temperature := 0 |} in
  match float (nth 0 values "") with
  | None => g0
  | Some u =>
      let g1 := {| available := true; usage := u; memory := 0; temperature := 0 |} in
      match float (nth 1 values "") with
      | None => g1
      | Some m =>
          let g2 := {| available := true; usage := u; memory := m;
                       temperature := 0 |} in
          match float (nth 2 values "") with
          | None => g2
          | Some t => {| available := true; usage := u; memory := m;
                         temperature := t |}
          end
      end
  end.

Definition get_gpu_info (run : result CompletedProcess) : gpu_info :=
  match run with
  | Return result =>
      if returncode result =? 0 then
        let values := Str.split ", " (Str.strip (stdout result)) in
        if (3 <=? length values)%nat then gpu_parse values
        else gpu_unavailable
      else gpu_unavailable
  | Raise _ => gpu_unavailable
  end.

End Gpu.

(** [self.history[key].append(value)]; a missing key is a [KeyError]. *)
Definition history_append (key : string) (value : Q) : M SystemMonitor unit :=
  self ← get_self;
  match history self !! key with
  | Some l => set_self (set_history (insert key (l ++ [value])%list))
  | None => raise (Exn "KeyError" key)
  end.

(** The loop over [temps.items()]: the running sum and count. *)
Definition temperature_totals (temps : temps_dict) : Q * Z :=
  fold_left
    (fun acc item =>
       match snd item with
       | TList values =>
           ((fst acc + Qsum values)%Q, snd acc + Z.of_nat (length values))
       | TStr _ => acc
       end)
    temps (0%Q, 0).

Definition average_temperature (temps : temps_dict) : Q :=
  let totals :=
    if match temps with [] => false | _ => true end
       && negb (dict_has "error" temps)
    then temperature_totals temps
    else (0%Q, 0) in
  if 0 <? snd totals then (fst totals / inject_Z (snd totals))%Q
  else fst totals.

Definition collect_snapshot (os : probe) : M SystemMonitor snapshot :=
  self ← get_self;
  let timestamp := os_now os in
  let elapsed_time := (os_time os - start_time self)%Q in
  cpu ← get_cpu_info os;
  memory ← get_memory_info os;
  disk ← get_disk_info os;
  network ← get_network_info os;
  let temperature := get_temperature_info os in
  let gpu := get_gpu_info Str.float (os_nvidia_smi os) in
  let snapshot :=
    {| snap_timestamp := timestamp; snap_elapsed_time := elapsed_time;
       snap_cpu := cpu; snap_memory := memory; snap_disk := disk;
       snap_network := network; snap_temperature := temperature;
       snap_gpu := gpu |} in
  _ ← history_append "timestamps" (snap_timestamp snapshot);
  _ ← history_append "cpu_percent" (cpu_percent (snap_cpu snapshot));
  _ ← history_append "memory_percent" (mem_percent (snap_memory snapshot));
  _ ← history_append "disk_read" (read_speed (snap_disk snapshot));
  _ ← history_append "disk_write" (write_speed (snap_disk snapshot));
  _ ← history_append "net_sent" (sent_speed (snap_network snapshot));
  _ ← history_append "net_recv" (recv_speed (snap_network snapshot));
  _ ← history_append "temperatures"
        (average_temperature (snap_temperature snapshot));
  _ ← history_append "gpu_usage" (usage (snap_gpu snapshot));
  mret snapshot.

Definition get_history : M SystemMonitor (gmap string (list Q)) :=
  self ← get_self;
  mret (history self).

(** [t] is the reading of [time.time()]. *)
Definition clear_history (t : Q) : M SystemMonitor unit :=
  _ ← set_self (set_history (fmap (fun _ => [])));
  set_self (set_start_time t).

(** The state a method call leaves, and what it returns. *)
Definition state_after {A} (m : M SystemMonitor A) (self : SystemMonitor)
  : SystemMonitor := snd (m self).
Definition value_of {A} (m : M SystemMonitor A) (self : SystemMonitor)
  : result A := fst (m self).

(** [n] successive reads of the history. *)
Fixpoint read_history (n : nat) (self : SystemMonitor)
  : list (result (gmap string (list Q))) * SystemMonitor :=
  match n with
  | O => ([], self)
  | S n' =>
      let r := get_history self in
      let rest := read_history n' (snd r) in
      (fst r :: fst rest, snd rest)
  end.

(** Successive sampling passes, one per probe; a pass that raises leaves the
    monitor as the exception found it. *)
Fixpoint collect_all (probes : list probe) (self : SystemMonitor)
  : SystemMonitor :=
  match probes with
  | [] => self
  | os :: rest => collect_all rest (state_after (collect_snapshot os) self)
  end.

(** Every pass of [probes] returns, run in turn from [self]. *)
Fixpoint all_return (probes : list probe) (self : SystemMonitor) : Prop :=
  match probes with
  | [] => True
  | os :: rest =>
      returns (value_of (collect_snapshot os) self) /\
      all_return rest (state_after (collect_snapshot os) self)
  end.

(** * The statistics table of [pdf_report.py] *)

(** Python's [statistics] module, which computes in exact fractions. *)
Module statistics.

Definition count (data : list Q) : Q := inject_Z (Z.of_nat (length data)).

Definition mean (data : list Q) : Q := (Qsum data / count data)%Q.

(** The sum of squared deviations from the mean, computed in one pass from
    the sum and the sum of squares. *)
Definition ss (data : list Q) : Q :=
  let sx := Qsum data in
  let sxx := Qsum (map (fun x => x * x)%Q data) in
  ((count data * sxx - sx * sx) / count data)%Q.

(** [variance(data)], of which [stdev(data)] is the square root; the
    library raises [StatisticsError] below two data points. *)
Definition variance (data : list Q) : option Q :=
  if (length data <? 2)%nat then None
  else Some (ss data / (count data - 1))%Q.

End statistics.

(** [min(data)] and [max(data)] of a non-empty list; the first of equal
    elements is kept. *)
Definition py_min (data : list Q) : Q :=
  match data with
  | [] => 0%Q
  | x :: rest => fold_left (fun m y => if Qltb y m then y else m) rest x
  end.
Definition py_max (data : list Q) : Q :=
  match data with
  | [] => 0%Q
  | x :: rest => fold_left (fun m y => if Qltb m y then y else m) rest x
  end.

(** The cell [f"{statistics.stdev(data) if len(data) > 1 else 0:.2f}"]. *)
Definition stdev_cell (data : list Q) : string :=
  if (1 <? length data)%nat then
    match statistics.variance data with
    | Some v => Fmt.fmt2_sqrt v
    | None => "StatisticsError"
    end
  else Fmt.fmt2 0.

(** The four cells appended after the label of a channel. *)
Definition stats_cells (data : list Q) : list string :=
  [Fmt.fmt2 (statistics.mean data); Fmt.fmt2 (py_min data);
   Fmt.fmt2 (py_max data); stdev_cell data].

Definition to_mb (data : list Q) : list Q :=
  map (fun x => x / inject_Z (1024 * 1024))%Q data.

(** [_generate_statistics], on the history the generator holds.  The labels
    are the report's column and row titles. *)
Definition _generate_statistics (history : gmap string (list Q))
  : list (list string) :=
  match history !!! "timestamps" with
  | [] => []
  | _ =>
      let row (label : string) (data : list Q) : list (list string) :=
        match data with
        | [] => []
        | _ => [label :: stats_cells data]
        end in
      ([["리소스"; "평균"; "최소"; "최대"; "표준편차"]]
       ++ row "CPU 사용률 (%)" (history !!! "cpu_percent")
       ++ row "메모리 사용률 (%)" (history !!! "memory_percent")
       ++ row "디스크 읽기 (MB/s)" (to_mb (history !!! "disk_read"))
       ++ row "디스크 쓰기 (MB/s)" (to_mb (history !!! "disk_write"))
       ++ row "네트워크 송신 (MB/s)" (to_mb (history !!! "net_sent"))
       ++ row "네트워크 수신 (MB/s)" (to_mb (history !!! "net_recv")))%list
  end.

(** * Start and stop in [monitor_ui.py] *)

Inductive widget_state := NORMAL | DISABLED.

(** The fields of [MonitorUI] that the control flow reads, and two pieces of
    the run-time around it: [loops] counts the live threads that run
    [monitoring_loop], each standing at the head of its [while], and
    [pending_complete] the calls of [on_monitoring_complete] queued with
    [root.after] and not yet run. *)
Record MonitorUI := {
  monitor : SystemMonitor;
  is_monitoring : bool;
  recording_start_time : option Q;
  recording_duration : Q;
  start_button : widget_state;
  stop_button : widget_state;
  pdf_button : widget_state;
  loops : nat;
  pending_complete : nat }.

Definition MonitorUI_init (m : SystemMonitor) : MonitorUI :=
  {| monitor := m; is_monitoring := false; recording_start_time := None;
     recording_duration := 60; start_button := NORMAL;
     stop_button := DISABLED; pdf_button := DISABLED;
     loops := 0; pending_complete := 0 |}.

(** [t] is the reading of [time.time()] in [clear_history] and [now] that of
    [datetime.now()]. *)
Definition start_monitoring (t now : Q) (ui : MonitorUI) : MonitorUI :=
  {| is_monitoring := true;
     monitor := state_after (clear_history t) (monitor ui);
     recording_start_time := Some now;
     recording_duration := recording_duration ui;
     start_button := DISABLED;
     stop_button := NORMAL;
     pdf_button := DISABLED;
     loops := S (loops ui);
     pending_complete := pending_complete ui |}.

Definition on_monitoring_complete (ui : MonitorUI) : MonitorUI :=
  {| is_monitoring := is_monitoring ui;
     monitor := monitor ui;
     recording_start_time := recording_start_time ui;
     recording_duration := recording_duration ui;
     start_button := NORMAL;
     stop_button := DISABLED;
     pdf_button := NORMAL;
     loops := loops ui;
     pending_complete := pending_complete ui |}.

Definition set_is_monitoring (b : bool) (ui : MonitorUI) : MonitorUI :=
  {| is_monitoring := b;
     monitor := monitor ui;
     recording_start_time := recording_start_time ui;
     recording_duration := recording_duration ui;
     start_button := start_button ui;
     stop_button := stop_button ui;
     pdf_button := pdf_button ui;
     loops := loops ui;
     pending_complete := pending_complete ui |}.

Definition stop_monitoring (ui : MonitorUI) : MonitorUI :=
  on_monitoring_complete (set_is_monitoring false ui).

(** The run-time's part: a thread ends, a callback is queued or taken. *)
Definition set_runtime (m : SystemMonitor) (n k : nat) (ui : MonitorUI)
  : MonitorUI :=
  {| is_monitoring := is_monitoring ui;
     monitor := m;
     recording_start_time := recording_start_time ui;
     recording_duration := recording_duration ui;
     start_button := start_button ui;
     stop_button := stop_button ui;
     pdf_button := pdf_button ui;
     loops := n;
     pending_complete := k |}.

(** One turn of the [while] of [monitoring_loop] by one of the live threads:
    the test, and when it holds the body up to the [break] or the end of the
    [sleep].  An exception ends the thread. *)
Definition monitoring_loop_turn (os : probe) (now : Q) (ui : MonitorUI)
  : MonitorUI :=
  if is_monitoring ui then
    match collect_snapshot os (monitor ui), recording_start_time ui with
    | (Return _, m), Some started =>
        let elapsed := (now - started)%Q in
        let remaining := (recording_duration ui - elapsed)%Q in
        if Qle_bool remaining 0 then
          set_runtime m (pred (loops ui)) (S (pending_complete ui))
            (set_is_monitoring false ui)
        else set_runtime m (loops ui) (pending_complete ui) ui
    | (_, m), _ => set_runtime m (pred (loops ui)) (pending_complete ui) ui
    end
  else set_runtime (monitor ui) (pred (loops ui)) (pending_complete ui) ui.

(** What reaches the object from the window and from the run-time.  A click
    on a disabled button does not call its command. *)
Inductive event :=
  | ClickStart (t now : Q)
  | ClickStop
  | LoopTurn (os : probe) (now : Q)
  | CompleteCallback.

Definition step (e : event) (ui : MonitorUI) : MonitorUI :=
  match e with
  | ClickStart t now =>
      match start_button ui with
      | NORMAL => start_monitoring t now ui
      | DISABLED => ui
      end
  | ClickStop =>
      match stop_button ui with
      | NORMAL => stop_monitoring ui
      | DISABLED => ui
      end
  | LoopTurn os now =>
      match loops ui with
      | O => ui
      | S _ => monitoring_loop_turn os now ui
      end
  | CompleteCallback =>
      match pending_complete ui with
      | O => ui
      | S k =>
          on_monitoring_complete
            (set_runtime (monitor ui) (loops ui) k ui)
      end
  end.

Definition run (events : list event) (ui : MonitorUI) : MonitorUI :=
  fold_left (fun s e => step e s) events ui.

(** Neither a stop nor the completion of a session. *)
Definition keeps_running (e : event) : bool :=
  match e with
  | ClickStart _ _ | LoopTurn _ _ => true
  | ClickStop | CompleteCallback => false
  end.

(** * The contract of the specification, in its words *)

(** Section 4.1: [rate(prevValue, currValue, prevTime, currTime)]. *)
Definition RateCounter_rate (prevValue currValue : Z) (prevTime currTime : Q)
  : Q :=
  if Qle_bool currTime prevTime then 0%Q
  else if currValue <? prevValue then 0%Q
  else (inject_Z (currValue - prevValue) / (currTime - prevTime))%Q.

(** * Sample inputs *)

Definition line_feed : string := String (ascii_of_nat 10) EmptyString.

(** A pass in which every query answers: the clock reads [t] throughout, the
    disk has read [read] bytes and the network has sent [sent] bytes. *)
Definition sample_probe (t : Q) (read sent : Z) : probe :=
  {| os_now := t; os_time := t;
     os_cpu_percent := Return 5%Q; os_cpu_count := Return 4;
     os_cpu_freq := Return (Some 2400%Q); os_per_cpu := Return [5%Q; 5%Q];
     os_virtual_memory :=
       Return {| vm_total := 100; vm_available := 50; vm_percent := 50;
                 vm_used := 50 |};
     os_swap_memory := Return {| sw_total := 0; sw_used := 0; sw_percent := 0 |};
     os_disk_usage :=
       Return {| du_total := 10; du_used := 5; du_free := 5; du_percent := 50 |};
     os_disk_io_counters :=
       Return (Some {| read_bytes := read; write_bytes := 500 |});
     os_time_disk := t;
     os_net_io_counters :=
       Return (Some {| bytes_sent := sent; bytes_recv := 50;
                       packets_sent := 1; packets_recv := 1 |});
     os_time_net := t;
     os_has_sensors := true;
     os_sensors_temperatures := Return [("coretemp", [40%Q; 50%Q])];
     os_nvidia_smi := Raise (Exn "FileNotFoundError" "nvidia-smi") |}.

(** The same pass with the memory query failing. *)
Definition memory_fails (os : probe) : probe :=
  {| os_now := os_now os; os_time := os_time os;
     os_cpu_percent := os_cpu_percent os; os_cpu_count := os_cpu_count os;
     os_cpu_freq := os_cpu_freq os; os_per_cpu := os_per_cpu os;
     os_virtual_memory := Raise (Exn "OSError" "virtual_memory");
     os_swap_memory := os_swap_memory os;
     os_disk_usage := os_disk_usage os;
     os_disk_io_counters := os_disk_io_counters os;
     os_time_disk := os_time_disk os;
     os_net_io_counters := os_net_io_counters os;
     os_time_net := os_time_net os;
     os_has_sensors := os_has_sensors os;
     os_sensors_temperatures := os_sensors_temperatures os;
     os_nvidia_smi := os_nvidia_smi os |}.

(** A monitor constructed at time 0, when the disk had read 1000 bytes and
    the network had sent 200. *)
Definition sample_monitor : SystemMonitor :=
  SystemMonitor_init 0
    (Some {| bytes_sent := 200; bytes_recv := 50;
             packets_sent := 1; packets_recv := 1 |})
    (Some {| read_bytes := 1000; write_bytes := 500 |}) 0.

(** [nvidia-smi] exits with 0 and prints a line whose first field is not a
    number. *)
Definition smi_not_a_number : result CompletedProcess :=
  Return {| returncode := 0; stdout := "[N/A], 1024, 45" ++ line_feed |}.

(** * Predicates and auxiliary functions of the properties *)

(** What the code computes from two counter readings and two clock readings:
    0 when the clock has not advanced, and otherwise the quotient of the
    differences, which is the contract's value unless the counter fell. *)
Definition computes_rate (prevValue currValue : Z) (prevTime currTime rate : Q)
  : Prop :=
  ((currTime <= prevTime)%Q -> rate = 0%Q) /\
  ((prevTime < currTime)%Q ->
   rate = (inject_Z (currValue - prevValue) / (currTime - prevTime))%Q) /\
  ((prevTime < currTime)%Q -> currValue < prevValue -> (rate < 0)%Q) /\
  (prevValue <= currValue ->
   (rate == RateCounter_rate prevValue currValue prevTime currTime)%Q).

(** The disk counters have not fallen since the previous reading. *)
Definition disk_not_fallen (os : probe) (self : SystemMonitor) : Prop :=
  match os_disk_io_counters os, _prev_disk_io self with
  | Return (Some io), Some prev =>
      read_bytes prev <= read_bytes io /\ write_bytes prev <= write_bytes io
  | _, _ => True
  end.

(** Every channel of the history is present. *)
Definition has_channels (h : gmap string (list Q)) : Prop :=
  forall key, key ∈ channels -> is_Some (h !! key).

(** Every channel is present and holds [n] values. *)
Definition lockstep (n : nat) (h : gmap string (list Q)) : Prop :=
  forall key, key ∈ channels -> exists l, h !! key = Some l /\ length l = n.

(** The nine values a snapshot adds to the history, by channel. *)
Definition sample_of (snap : snapshot) : list (string * Q) :=
  [("timestamps", snap_timestamp snap);
   ("cpu_percent", cpu_percent (snap_cpu snap));
   ("memory_percent", mem_percent (snap_memory snap));
   ("disk_read", read_speed (snap_disk snap));
   ("disk_write", write_speed (snap_disk snap));
   ("net_sent", sent_speed (snap_network snap));
   ("net_recv", recv_speed (snap_network snap));
   ("temperatures", average_temperature (snap_temperature snap));
   ("gpu_usage", usage (snap_gpu snap))].

Definition append_item (h : gmap string (list Q)) (item : string * Q)
  : gmap string (list Q) :=
  <[fst item := (default [] (h !! fst item) ++ [snd item])%list]> h.

Fixpoint append_all (items : list (string * Q)) : M SystemMonitor unit :=
  match items with
  | [] => mret tt
  | item :: rest =>
      _ ← history_append (fst item) (snd item); append_all rest
  end.

Fixpoint assoc (key : string) (items : list (string * Q)) : option Q :=
  match items with
  | [] => None
  | item :: rest =>
      if String.eqb (fst item) key then Some (snd item) else assoc key rest
  end.

(** Two monitors that differ in their history at most. *)
Definition same_counters (s s' : SystemMonitor) : Prop :=
  start_time s' = start_time s /\
  _prev_net_io s' = _prev_net_io s /\
  _prev_disk_io s' = _prev_disk_io s /\
  _prev_time s' = _prev_time s.

(** The snapshot a pass assembles from what its four readers returned. *)
Definition assemble (os : probe) (self : SystemMonitor) (cpu : cpu_info)
  (memory : memory_info) (disk : disk_info) (network : network_info)
  : snapshot :=
  {| snap_timestamp := os_now os;
     snap_elapsed_time := (os_time os - start_time self)%Q;
     snap_cpu := cpu; snap_memory := memory; snap_disk := disk;
     snap_network := network;
     snap_temperature := get_temperature_info os;
     snap_gpu := get_gpu_info Str.float (os_nvidia_smi os) |}.

(** The queries of the four unguarded readers all answer, and the network
    counters, now and at the previous reading, are not [None]. *)
Definition core_queries_return (os : probe) (self : SystemMonitor) : Prop :=
  returns (os_cpu_percent os) /\ returns (os_cpu_count os) /\
  returns (os_cpu_freq os) /\ returns (os_per_cpu os) /\
  returns (os_virtual_memory os) /\ returns (os_swap_memory os) /\
  returns (os_disk_usage os) /\ returns (os_disk_io_counters os) /\
  (exists io, os_net_io_counters os = Return (Some io)) /\
  is_Some (_prev_net_io self).

(** The squared deviations from [m], summed. *)
Definition squared_deviations (m : Q) (data : list Q) : Q :=
  Qsum (map (fun x => (x - m) * (x - m))%Q data).

(** * Further auxiliary definitions *)

(** The channel [key] of [h'] is that of [h] with [value] added at its end. *)
Definition appended (h h' : gmap string (list Q)) (key : string) (value : Q)
  : Prop :=
  exists l, h !! key = Some l /\ h' !! key = Some (l ++ [value])%list.

(** A pass in which the network query fails after the disk was read. *)
Definition network_fails (os : probe) : probe :=
  {| os_now := os_now os; os_time := os_time os;
     os_cpu_percent := os_cpu_percent os; os_cpu_count := os_cpu_count os;
     os_cpu_freq := os_cpu_freq os; os_per_cpu := os_per_cpu os;
     os_virtual_memory := os_virtual_memory os;
     os_swap_memory := os_swap_memory os;
     os_disk_usage := os_disk_usage os;
     os_disk_io_counters := os_disk_io_counters os;
     os_time_disk := os_time_disk os;
     os_net_io_counters := Raise (Exn "OSError" "net_io_counters");
     os_time_net := os_time_net os;
     os_has_sensors := os_has_sensors os;
     os_sensors_temperatures := os_sensors_temperatures os;
     os_nvidia_smi := os_nvidia_smi os |}.

(** Every reading of every sensor group of a temperature dictionary, in
    order: the [temp_values] of [update_info_labels]. *)
Definition all_readings (temps : temps_dict) : list Q :=
  concat (map (fun item =>
                 match snd item with
                 | TList values => values
                 | TStr _ => []
                 end) temps).

(** The sensor groups that have entries, as [get_temperature_info] stores
    them. *)
Definition sensor_groups (sensors : list (string * list Q)) : temps_dict :=
  map (fun entry => (fst entry, TList (snd entry)))
    (List.filter
       (fun entry => match snd entry with [] => false | _ => true end)
       sensors).

(** * The display timer of [monitor_ui.py] *)

(** [update_display]: while no session is monitoring it takes a sample
    itself; it then redraws the labels and graphs, which writes to no field
    modelled here, and re-arms itself with [root.after(100, ...)] as its
    last statement.  The result is [Return] when the timer was re-armed and
    [Raise] when an exception left the callback before that. *)
Definition update_display (os : probe) (ui : MonitorUI)
  : result unit * MonitorUI :=
  if is_monitoring ui then (Return tt, ui)
  else
    match collect_snapshot os (monitor ui) with
    | (Return _, m) =>
        (Return tt, set_runtime m (loops ui) (pending_complete ui) ui)
    | (Raise e, m) =>
        (Raise e, set_runtime m (loops ui) (pending_complete ui) ui)
    end.

(** Successive firings of the display timer, one per probe; after an
    exception the timer is not armed and fires no more. *)
Fixpoint display_ticks (probes : list probe) (ui : MonitorUI) : MonitorUI :=
  match probes with
  | [] => ui
  | os :: rest =>
      match update_display os ui with
      | (Return _, ui') => display_ticks rest ui'
      | (Raise _, ui') => ui'
      end
  end.

(** The test [any(t > 0 for t in data)] that decides between the curve and
    the "not available" text in the temperature and GPU graphs. *)
Definition draws_curve (data : list Q) : bool := existsb (Qltb 0) data.

(** The buttons of every state the window can reach. *)
Definition buttons_consistent (ui : MonitorUI) : Prop :=
  (start_button ui = NORMAL /\ stop_button ui = DISABLED) \/
  (start_button ui = DISABLED /\ stop_button ui = NORMAL /\
   pdf_button ui = DISABLED).

(** A session was started before any loop or completion existed. *)
Definition started_before_loops (ui : MonitorUI) : Prop :=
  (is_monitoring ui = true \/ (0 < loops ui)%nat) ->
  is_Some (recording_start_time ui).

(** * The summary table of [pdf_report.py] *)

(** [f"{q:.1f}"] *)
Definition fmt1 (q : Q) : string :=
  let n := Fmt.round_half_even (Qabs q * 10) in
  let body := Fmt.digits (n / 10) ++ "." ++ Fmt.digits (n mod 10) in
  if Qlt_le_dec q 0 then "-" ++ body else body.

Section Summary.

(** [strftime("%Y-%m-%d %H:%M:%S")] of a [datetime]; the calendar is not
    modelled. *)
Variable strftime : Q -> string.

(** [_generate_summary], on the history the generator holds: the time from
    the first to the last timestamp, the number of samples, and the first
    and last timestamps. *)
Definition _generate_summary (history : gmap string (list Q))
  : list (list string) :=
  match history !!! "timestamps" with
  | [] => []
  | first :: rest =>
      let timestamps := first :: rest in
      let final := List.last timestamps first in
      let duration := (final - first)%Q in
      [["모니터링 기간"; fmt1 duration ++ "초"];
       ["데이터 포인트";
        Fmt.digits (Z.of_nat (length timestamps)) ++ "개"];
       ["시작 시간"; strftime first];
       ["종료 시간"; strftime final]]
  end.

End Summary.

(** The exception of the first query of the four unguarded readers that
    raises, in the order in which [collect_snapshot] makes the queries: the
    four of [get_cpu_info], the two of [get_memory_info], the two of
    [get_disk_info] and the one of [get_network_info]. *)
Definition first_query_error (os : probe) : option exn :=
  match os_cpu_percent os with Raise e => Some e | Return _ =>
  match os_cpu_count os with Raise e => Some e | Return _ =>
  match os_cpu_freq os with Raise e => Some e | Return _ =>
  match os_per_cpu os with Raise e => Some e | Return _ =>
  match os_virtual_memory os with Raise e => Some e | Return _ =>
  match os_swap_memory os with Raise e => Some e | Return _ =>
  match os_disk_usage os with Raise e => Some e | Return _ =>
  match os_disk_io_counters os with Raise e => Some e | Return _ =>
  match os_net_io_counters os with Raise e => Some e | Return _ =>
  None
  end end end end end end end end end.



(** * Properties *)

(** ** Rationals *)

Lemma Qltb_lt (x y : Q) : Qltb x y = true <-> (x < y)%Q.
Proof.
  unfold Qltb. rewrite negb_true_iff. split.
  - intros H. apply Qnot_le_lt. intros Hle.
    apply Qle_bool_iff in Hle. congruence.
  - intros H. destruct (Qle_bool y x) eqn:E; [|reflexivity].
    apply Qle_bool_iff in E. exfalso. exact (Qlt_not_le _ _ H E).
Qed.

Lemma Qltb_ge (x y : Q) : Qltb x y = false <-> (y <= x)%Q.
Proof.
  unfold Qltb. rewrite negb_false_iff. apply Qle_bool_iff.
Qed.

Lemma time_delta_pos (prev curr : Q) :
  Qltb 0 (curr - prev) = true <-> (prev < curr)%Q.
Proof. rewrite Qltb_lt. split; intros H; lra. Qed.

Lemma time_delta_nonpos (prev curr : Q) :
  Qltb 0 (curr - prev) = false <-> (curr <= prev)%Q.
Proof. rewrite Qltb_ge. split; intros H; lra. Qed.

Lemma per_second_sign (curr prev : Z) (time_delta : Q) :
  (0 < time_delta)%Q ->
  (prev <= curr -> (0 <= per_second curr prev time_delta)%Q) /\
  (curr < prev -> (per_second curr prev time_delta < 0)%Q).
Proof.
  intros Hpos. unfold per_second, Qdiv.
  assert (Hinv : (0 < / time_delta)%Q) by (apply Qinv_lt_0_compat; exact Hpos).
  split; intros H.
  - apply Qmult_le_0_compat; [|apply Qlt_le_weak; exact Hinv].
    change 0%Q with (inject_Z 0). rewrite <- Zle_Qle. lia.
  - assert (Hneg : (inject_Z (curr - prev) < 0)%Q).
    { change 0%Q with (inject_Z 0). rewrite <- Zlt_Qlt. lia. }
    pose proof (Qmult_lt_compat_r _ _ _ Hinv Hneg) as Hm.
    rewrite Qmult_0_l in Hm. exact Hm.
Qed.

(** ** The disk and network readers, evaluated *)

Ltac run_method :=
  unfold mbind, M_bind, mret, M_ret, query, get_self, set_self, raise,
    attributes; cbn.

Lemma get_network_info_eq os self io prev :
  os_net_io_counters os = Return (Some io) ->
  _prev_net_io self = Some prev ->
  get_network_info os self =
    (let time_delta := (os_time_net os - _prev_time self)%Q in
     let up := Qltb 0 time_delta in
     Return
       {| net_bytes_sent := bytes_sent io;
          net_bytes_recv := bytes_recv io;
          sent_speed :=
            if up then per_second (bytes_sent io) (bytes_sent prev) time_delta
            else 0%Q;
          recv_speed :=
            if up then per_second (bytes_recv io) (bytes_recv prev) time_delta
            else 0%Q;
          net_packets_sent := packets_sent io;
          net_packets_recv := packets_recv io |},
     set_prev_time (os_time_net os) (set_prev_net_io (Some io) self)).
Proof.
  intros Hio Hprev. unfold get_network_info. run_method.
  rewrite Hio. cbn.
  destruct (Qltb 0 (os_time_net os - _prev_time self)); cbn;
    [rewrite Hprev; cbn|]; reflexivity.
Qed.

Lemma get_disk_info_eq os self disk_usage disk_io :
  os_disk_usage os = Return disk_usage ->
  os_disk_io_counters os = Return disk_io ->
  get_disk_info os self =
    (let speeds :=
       disk_speeds (os_time_disk os - _prev_time self) disk_io
         (_prev_disk_io self) in
     Return
       {| disk_percent := du_percent disk_usage;
          disk_total := du_total disk_usage;
          disk_used := du_used disk_usage;
          disk_free := du_free disk_usage;
          read_speed := fst speeds;
          write_speed := snd speeds |},
     match disk_io with
     | Some io => set_prev_disk_io (Some io) self
     | None => self
     end).
Proof.
  intros Husage Hio. unfold get_disk_info. run_method.
  rewrite Husage. cbn. rewrite Hio. cbn.
  destruct disk_io; reflexivity.
Qed.

Lemma get_network_info_returns os self info :
  value_of (get_network_info os) self = Return info ->
  exists io, os_net_io_counters os = Return (Some io).
Proof.
  unfold value_of, get_network_info. run_method.
  destruct (os_net_io_counters os) as [[io|]|e]; cbn.
  - intros _. exists io. reflexivity.
  - destruct (Qltb 0 (os_time_net os - _prev_time self)); cbn; discriminate.
  - discriminate.
Qed.

Lemma get_disk_info_returns os self info :
  value_of (get_disk_info os) self = Return info ->
  exists disk_usage disk_io,
    os_disk_usage os = Return disk_usage /\
    os_disk_io_counters os = Return disk_io.
Proof.
  unfold value_of, get_disk_info. run_method.
  destruct (os_disk_usage os) as [u|e]; cbn; [|discriminate].
  destruct (os_disk_io_counters os) as [dio|e]; cbn; [|discriminate].
  intros _. exists u, dio. split; reflexivity.
Qed.

(** ** C1: the rate computation *)

Lemma RateCounter_rate_stale prevValue currValue prevTime currTime :
  (currTime <= prevTime)%Q ->
  RateCounter_rate prevValue currValue prevTime currTime = 0%Q.
Proof.
  intros H. unfold RateCounter_rate.
  apply Qle_bool_iff in H. rewrite H. reflexivity.
Qed.

Lemma RateCounter_rate_up prevValue currValue prevTime currTime :
  (prevTime < currTime)%Q -> prevValue <= currValue ->
  RateCounter_rate prevValue currValue prevTime currTime =
    (inject_Z (currValue - prevValue) / (currTime - prevTime))%Q.
Proof.
  intros Ht Hv. unfold RateCounter_rate.
  destruct (Qle_bool currTime prevTime) eqn:E.
  - apply Qle_bool_iff in E. exfalso. exact (Qlt_not_le _ _ Ht E).
  - destruct (currValue <? prevValue) eqn:E'; [|reflexivity].
    apply Z.ltb_lt in E'. lia.
Qed.

Lemma computes_rate_code prevValue currValue prevTime currTime :
  computes_rate prevValue currValue prevTime currTime
    (if Qltb 0 (currTime - prevTime)
     then per_second currValue prevValue (currTime - prevTime)
     else 0%Q).
Proof.
  unfold computes_rate.
  destruct (Qltb 0 (currTime - prevTime)) eqn:E.
  - apply time_delta_pos in E. repeat split.
    + intros H. exfalso. exact (Qlt_not_le _ _ E H).
    + intros _ Hv.
      apply (per_second_sign currValue prevValue (currTime - prevTime));
        [lra | exact Hv].
    + intros Hv. rewrite RateCounter_rate_up by assumption. reflexivity.
  - apply time_delta_nonpos in E. repeat split.
    + intros H. exfalso. exact (Qlt_not_le _ _ H E).
    + intros H. exfalso. exact (Qlt_not_le _ _ H E).
    + intros _. rewrite RateCounter_rate_stale by assumption. reflexivity.
Qed.

Lemma disk_speeds_rates time_prev time_curr io prev :
  let speeds := disk_speeds (time_curr - time_prev) (Some io) (Some prev) in
  computes_rate (read_bytes prev) (read_bytes io) time_prev time_curr
    (fst speeds) /\
  computes_rate (write_bytes prev) (write_bytes io) time_prev time_curr
    (snd speeds).
Proof.
  cbn. unfold disk_speeds.
  pose proof (computes_rate_code (read_bytes prev) (read_bytes io)
                time_prev time_curr) as Hr.
  pose proof (computes_rate_code (write_bytes prev) (write_bytes io)
                time_prev time_curr) as Hw.
  destruct (Qltb 0 (time_curr - time_prev)); cbn; split; assumption.
Qed.

(** The counters fall between the construction and the first read. *)
Lemma rate_reset_counterexample :
  exists info,
    value_of (get_network_info (sample_probe 2 3000 100)) sample_monitor
      = Return info /\
    (sent_speed info < 0)%Q /\
    ~ (sent_speed info == RateCounter_rate 200 100 0 2)%Q.
Proof.
  eexists. split; [vm_compute; reflexivity|].
  split; [reflexivity|]. intros H. vm_compute in H. discriminate.
Qed.

(** C1, amended: in [get_network_info] and [get_disk_info] the rate is 0
    when the clock has not advanced past [_prev_time] and otherwise
    [(currValue - prevValue) / (currTime - prevTime)]; this is the contract's
    rate whenever the counter has not fallen, and a negative rate when it
    has.  The disk rates are computed this way when both disk readings
    exist; when the counters read now or those of the previous reading are
    [None], both disk rates are 0. *)
Theorem rate_computation os self :
  (forall io prev info,
     _prev_net_io self = Some prev ->
     os_net_io_counters os = Return (Some io) ->
     value_of (get_network_info os) self = Return info ->
     computes_rate (bytes_sent prev) (bytes_sent io) (_prev_time self)
       (os_time_net os) (sent_speed info) /\
     computes_rate (bytes_recv prev) (bytes_recv io) (_prev_time self)
       (os_time_net os) (recv_speed info)) /\
  (forall io prev info,
     _prev_disk_io self = Some prev ->
     os_disk_io_counters os = Return (Some io) ->
     value_of (get_disk_info os) self = Return info ->
     computes_rate (read_bytes prev) (read_bytes io) (_prev_time self)
       (os_time_disk os) (read_speed info) /\
     computes_rate (write_bytes prev) (write_bytes io) (_prev_time self)
       (os_time_disk os) (write_speed info)) /\
  (forall info,
     os_disk_io_counters os = Return None \/ _prev_disk_io self = None ->
     value_of (get_disk_info os) self = Return info ->
     read_speed info = 0%Q /\ write_speed info = 0%Q).
Proof.
  split; [|split].
  - intros io prev info Hprev Hio Hret. unfold value_of in Hret.
    rewrite (get_network_info_eq os self io prev Hio Hprev) in Hret.
    cbn in Hret. injection Hret as <-. cbn.
    split; apply computes_rate_code.
  - intros io prev info Hprev Hio Hret.
    destruct (get_disk_info_returns _ _ _ Hret) as (u & dio & Hu & Hdio).
    unfold value_of in Hret.
    rewrite (get_disk_info_eq os self u dio Hu Hdio) in Hret.
    cbn in Hret. injection Hret as <-. cbn.
    rewrite Hio in Hdio. injection Hdio as <-. rewrite Hprev.
    apply disk_speeds_rates.
  - intros info Hnone Hret.
    destruct (get_disk_info_returns _ _ _ Hret) as (u & dio & Hu & Hdio).
    unfold value_of in Hret.
    rewrite (get_disk_info_eq os self u dio Hu Hdio) in Hret.
    cbn in Hret. injection Hret as <-. cbn.
    assert (Hzero : disk_speeds (os_time_disk os - _prev_time self) dio
                      (_prev_disk_io self) = (0%Q, 0%Q)).
    { unfold disk_speeds.
      destruct (Qltb 0 (os_time_disk os - _prev_time self)); [|reflexivity].
      destruct Hnone as [Hnone|Hnone].
      - rewrite Hdio in Hnone. injection Hnone as ->. reflexivity.
      - rewrite Hnone. destruct dio; reflexivity. }
    rewrite Hzero. split; reflexivity.
Qed.

Lemma rate_computation_witness :
  exists info,
    value_of (get_network_info (sample_probe 2 3000 500)) sample_monitor
      = Return info /\
    computes_rate 200 500 0 2 (sent_speed info).
Proof.
  eexists. split; [vm_compute; reflexivity|].
  refine (proj1 (proj1 (rate_computation (sample_probe 2 3000 500)
                          sample_monitor)
                   {| bytes_sent := 500; bytes_recv := 50;
                      packets_sent := 1; packets_recv := 1 |}
                   {| bytes_sent := 200; bytes_recv := 50;
                      packets_sent := 1; packets_recv := 1 |} _ _ _ _));
    vm_compute; reflexivity.
Defined.

(** ** C5: the disk rates, and the first sample *)

Lemma disk_speeds_nonneg time_delta disk_io prev :
  match disk_io, prev with
  | Some io, Some prev =>
      read_bytes prev <= read_bytes io /\ write_bytes prev <= write_bytes io
  | _, _ => True
  end ->
  (0 <= fst (disk_speeds time_delta disk_io prev))%Q /\
  (0 <= snd (disk_speeds time_delta disk_io prev))%Q.
Proof.
  intros H. unfold disk_speeds.
  destruct (Qltb 0 time_delta) eqn:E; [|cbn; split; apply Qle_refl].
  apply Qltb_lt in E.
  destruct disk_io as [io|]; [|cbn; split; apply Qle_refl].
  destruct prev as [prev|]; [|cbn; split; apply Qle_refl].
  destruct H as [Hr Hw]. cbn. split.
  - apply (per_second_sign _ _ _ E). exact Hr.
  - apply (per_second_sign _ _ _ E). exact Hw.
Qed.

Lemma disk_speeds_unchanged time_delta disk_io :
  (fst (disk_speeds time_delta disk_io disk_io) == 0)%Q /\
  (snd (disk_speeds time_delta disk_io disk_io) == 0)%Q.
Proof.
  unfold disk_speeds.
  destruct (Qltb 0 time_delta) eqn:E; [|cbn; split; reflexivity].
  apply Qltb_lt in E.
  destruct disk_io as [io|]; [|cbn; split; reflexivity].
  cbn. unfold per_second. rewrite !Z.sub_diag.
  split; field; intros H; rewrite H in E; exact (Qlt_irrefl _ E).
Qed.

Lemma disk_speeds_stale time_delta disk_io prev :
  (time_delta <= 0)%Q -> disk_speeds time_delta disk_io prev = (0%Q, 0%Q).
Proof.
  intros H. unfold disk_speeds.
  apply Qltb_ge in H. rewrite H. reflexivity.
Qed.

(** On the first sample after the construction the disk had read 2000 bytes
    more, and the rate is 1000 bytes per second; with a counter that fell
    the rate is negative. *)
Lemma first_disk_sample_counterexample :
  (exists info,
     value_of (get_disk_info (sample_probe 2 3000 200)) sample_monitor
       = Return info /\
     ~ (read_speed info == 0)%Q) /\
  (exists info,
     value_of (get_disk_info (sample_probe 2 400 200)) sample_monitor
       = Return info /\
     (read_speed info < 0)%Q).
Proof.
  split; eexists; (split; [vm_compute; reflexivity|]).
  - intros H. vm_compute in H. discriminate.
  - reflexivity.
Qed.

(** C5, amended: the disk read-rate and write-rate of a snapshot are >= 0
    whenever the disk counters have not fallen since the previous reading,
    and on the first [get_disk_info] after the construction both are 0 when
    the clock has not advanced since [__init__] or the counters read what
    they read in [__init__]; otherwise the first rates are the change since
    [__init__] per second. *)
Theorem disk_rates os self info :
  value_of (get_disk_info os) self = Return info ->
  (disk_not_fallen os self ->
   (0 <= read_speed info)%Q /\ (0 <= write_speed info)%Q) /\
  (forall t_start net_io disk_io t_prev,
     self = SystemMonitor_init t_start net_io disk_io t_prev ->
     ((os_time_disk os <= t_prev)%Q \/
      os_disk_io_counters os = Return disk_io ->
      (read_speed info == 0)%Q /\ (write_speed info == 0)%Q) /\
     (forall io prev,
        disk_io = Some prev ->
        os_disk_io_counters os = Return (Some io) ->
        (t_prev < os_time_disk os)%Q ->
        read_speed info =
          (inject_Z (read_bytes io - read_bytes prev)
           / (os_time_disk os - t_prev))%Q /\
        write_speed info =
          (inject_Z (write_bytes io - write_bytes prev)
           / (os_time_disk os - t_prev))%Q)).
Proof.
  intros Hret.
  destruct (get_disk_info_returns _ _ _ Hret) as (u & dio & Hu & Hdio).
  unfold value_of in Hret.
  rewrite (get_disk_info_eq os self u dio Hu Hdio) in Hret.
  cbn in Hret. injection Hret as <-. cbn. split.
  - unfold disk_not_fallen. rewrite Hdio. intros H.
    apply disk_speeds_nonneg.
    destruct dio as [io|]; [|exact I].
    destruct (_prev_disk_io self); [exact H|exact I].
  - intros t_start net_io disk_io t_prev ->. cbn. split.
    + intros [Ht|Hsame].
      * rewrite disk_speeds_stale by lra. cbn. split; reflexivity.
      * rewrite Hdio in Hsame. injection Hsame as ->.
        apply disk_speeds_unchanged.
    + intros io prev -> Hio Ht. rewrite Hdio in Hio. injection Hio as ->.
      unfold disk_speeds.
      apply time_delta_pos in Ht. rewrite Ht. cbn. split; reflexivity.
Qed.

Lemma disk_rates_witness :
  exists info,
    value_of (get_disk_info (sample_probe 2 3000 200)) sample_monitor
      = Return info /\
    (0 <= read_speed info)%Q /\ (0 <= write_speed info)%Q.
Proof.
  eexists. split; [vm_compute; reflexivity|].
  refine (proj1 (disk_rates (sample_probe 2 3000 200) sample_monitor _ _) _).
  - vm_compute. reflexivity.
  - vm_compute. split; discriminate.
Defined.

(** ** C10: what [clear_history] leaves alone *)

Lemma clear_history_eq t self :
  clear_history t self =
    (Return tt,
     set_start_time t (set_history (fmap (fun _ => [])) self)).
Proof. reflexivity. Qed.

Lemma get_network_info_frame os self f t :
  value_of (get_network_info os) (set_start_time t (set_history f self))
  = value_of (get_network_info os) self.
Proof.
  unfold value_of, get_network_info. run_method.
  destruct (os_net_io_counters os) as [net_io|e]; cbn; [|reflexivity].
  destruct (Qltb 0 (os_time_net os - _prev_time self)); cbn.
  - destruct net_io as [io|]; cbn; [|reflexivity].
    destruct (_prev_net_io self); reflexivity.
  - destruct net_io; reflexivity.
Qed.

Lemma get_disk_info_frame os self f t :
  value_of (get_disk_info os) (set_start_time t (set_history f self))
  = value_of (get_disk_info os) self.
Proof.
  unfold value_of, get_disk_info. run_method.
  destruct (os_disk_usage os) as [u|e]; cbn; [|reflexivity].
  destruct (os_disk_io_counters os) as [[io|]|e]; reflexivity.
Qed.

(** C10: [clear_history] empties every channel of the history and sets
    [start_time] to the current time, and leaves [_prev_net_io],
    [_prev_disk_io] and [_prev_time] as they were; so the disk and network
    readers return after a clear what they would have returned without it:
    rates measured from the last read before the clear. *)
Theorem clear_history_frame t self :
  let cleared := state_after (clear_history t) self in
  value_of (clear_history t) self = Return tt /\
  (forall key, history cleared !! key = (fun _ => []) <$> history self !! key) /\
  start_time cleared = t /\
  _prev_net_io cleared = _prev_net_io self /\
  _prev_disk_io cleared = _prev_disk_io self /\
  _prev_time cleared = _prev_time self /\
  (forall os,
     value_of (get_network_info os) cleared
       = value_of (get_network_info os) self /\
     value_of (get_disk_info os) cleared
       = value_of (get_disk_info os) self).
Proof.
  cbn. unfold state_after, value_of. rewrite clear_history_eq. cbn.
  repeat split.
  - intros key. apply lookup_fmap.
  - apply get_network_info_frame.
  - apply get_disk_info_frame.
Qed.

(** ** The history: nine channels in lockstep *)

Lemma lockstep_has_channels n h : lockstep n h -> has_channels h.
Proof.
  intros H key Hkey. destruct (H key Hkey) as (l & Hl & _). eauto.
Qed.

Lemma has_channels_append_item h item :
  has_channels h -> has_channels (append_item h item).
Proof.
  intros H key Hkey. unfold append_item.
  destruct (decide (fst item = key)) as [->|Hne].
  - rewrite lookup_insert_eq. eauto.
  - rewrite lookup_insert_ne by exact Hne. apply H, Hkey.
Qed.

Lemma append_all_returns items : forall self,
  has_channels (history self) ->
  Forall (fun item => fst item ∈ channels) items ->
  exists s',
    append_all items self = (Return tt, s') /\
    history s' = fold_left append_item items (history self) /\
    same_counters self s'.
Proof.
  induction items as [|item rest IH]; intros self Hch Hkeys.
  - exists self. repeat split; reflexivity.
  - inversion Hkeys as [|? ? Hkey Hrest]; subst.
    destruct (Hch _ Hkey) as [l Hl].
    cbn [append_all]. unfold mbind, M_bind, history_append at 1.
    unfold get_self, set_self, mbind, M_bind. rewrite Hl.
    destruct (IH (set_history
                    (insert (fst item) (l ++ [snd item])%list) self))
      as (s' & Hrun & Hhist & Hsame).
    + cbn. replace (<[fst item:=(l ++ [snd item])%list]> (history self))
        with (append_item (history self) item)
        by (unfold append_item; rewrite Hl; reflexivity).
      apply has_channels_append_item, Hch.
    + exact Hrest.
    + exists s'. rewrite Hrun. repeat split; try apply Hsame.
      rewrite Hhist. cbn [fold_left]. f_equal.
      unfold append_item. rewrite Hl. reflexivity.
Qed.

Lemma fold_append_item_lookup items : forall h key,
  NoDup (fst <$> items) ->
  fold_left append_item items h !! key =
    match assoc key items with
    | Some v => Some (default [] (h !! key) ++ [v])%list
    | None => h !! key
    end.
Proof.
  induction items as [|item rest IH]; intros h key Hnd; [reflexivity|].
  cbn in Hnd. apply NoDup_cons in Hnd as [Hnotin Hnd].
  cbn [fold_left assoc]. rewrite (IH _ _ Hnd).
  destruct (String.eqb_spec (fst item) key) as [<-|Hne].
  - assert (Hnone : assoc (fst item) rest = None).
    { clear -Hnotin. induction rest as [|r rest IHr]; [reflexivity|].
      cbn. cbn in Hnotin. apply not_elem_of_cons in Hnotin as [Hne Hnotin].
      destruct (String.eqb_spec (fst r) (fst item)) as [Heq|_];
        [congruence|]. apply IHr, Hnotin. }
    rewrite Hnone. unfold append_item. apply lookup_insert_eq.
  - unfold append_item. rewrite lookup_insert_ne by exact Hne. reflexivity.
Qed.

Lemma channels_cases key :
  key ∈ channels ->
  key = "timestamps" \/ key = "cpu_percent" \/ key = "memory_percent" \/
  key = "disk_read" \/ key = "disk_write" \/ key = "net_sent" \/
  key = "net_recv" \/ key = "temperatures" \/ key = "gpu_usage".
Proof.
  unfold channels. rewrite !elem_of_cons, elem_of_nil. tauto.
Qed.

Lemma sample_of_keys snap :
  Forall (fun item => fst item ∈ channels) (sample_of snap) /\
  NoDup (fst <$> sample_of snap).
Proof.
  split.
  - unfold sample_of, channels.
    repeat (apply Forall_cons; split; [cbn; set_solver|]).
    apply Forall_nil_2.
  - cbn. apply (bool_decide_unpack _). vm_compute. reflexivity.
Qed.

Lemma sample_of_assoc snap key :
  key ∈ channels -> is_Some (assoc key (sample_of snap)).
Proof.
  intros H. apply channels_cases in H.
  repeat (destruct H as [->|H]); try subst key; cbn; eauto.
Qed.

Lemma lockstep_sample n h snap :
  lockstep n h -> lockstep (S n) (fold_left append_item (sample_of snap) h).
Proof.
  intros H key Hkey.
  rewrite fold_append_item_lookup by apply sample_of_keys.
  destruct (sample_of_assoc snap key Hkey) as [v ->].
  destruct (H key Hkey) as (l & -> & Hlen).
  eexists. split; [reflexivity|].
  cbn. rewrite length_app. cbn. lia.
Qed.

(** ** One sampling pass *)

Lemma get_cpu_info_state os self : snd (get_cpu_info os self) = self.
Proof.
  unfold get_cpu_info. run_method.
  destruct (os_cpu_percent os); cbn; [|reflexivity].
  destruct (os_cpu_count os); cbn; [|reflexivity].
  destruct (os_cpu_freq os); cbn; [|reflexivity].
  destruct (os_per_cpu os); reflexivity.
Qed.

Lemma get_memory_info_state os self : snd (get_memory_info os self) = self.
Proof.
  unfold get_memory_info. run_method.
  destruct (os_virtual_memory os); cbn; [|reflexivity].
  destruct (os_swap_memory os); reflexivity.
Qed.

Lemma get_disk_info_history os self :
  history (snd (get_disk_info os self)) = history self.
Proof.
  unfold get_disk_info. run_method.
  destruct (os_disk_usage os); cbn; [|reflexivity].
  destruct (os_disk_io_counters os) as [[io|]|]; reflexivity.
Qed.

Lemma get_network_info_history os self :
  history (snd (get_network_info os self)) = history self.
Proof.
  unfold get_network_info. run_method.
  destruct (os_net_io_counters os) as [net_io|]; cbn; [|reflexivity].
  destruct (Qltb 0 (os_time_net os - _prev_time self)); cbn.
  - destruct net_io; cbn; [|reflexivity].
    destruct (_prev_net_io self); reflexivity.
  - destruct net_io; reflexivity.
Qed.

Lemma collect_snapshot_eq os self :
  collect_snapshot os self =
    match get_cpu_info os self with
    | (Raise e, s) => (Raise e, s)
    | (Return cpu, s1) =>
        match get_memory_info os s1 with
        | (Raise e, s) => (Raise e, s)
        | (Return memory, s2) =>
            match get_disk_info os s2 with
            | (Raise e, s) => (Raise e, s)
            | (Return disk, s3) =>
                match get_network_info os s3 with
                | (Raise e, s) => (Raise e, s)
                | (Return network, s4) =>
                    let snap := assemble os self cpu memory disk network in
                    match append_all (sample_of snap) s4 with
                    | (Return _, s) => (Return snap, s)
                    | (Raise e, s) => (Raise e, s)
                    end
                end
            end
        end
    end.
Proof.
  unfold collect_snapshot.
  unfold mbind at 1, M_bind at 1, get_self at 1.
  unfold mbind at 1, M_bind at 1.
  destruct (get_cpu_info os self) as [[cpu|e] s1]; [|reflexivity].
  unfold mbind at 1, M_bind at 1.
  destruct (get_memory_info os s1) as [[memory|e] s2]; [|reflexivity].
  unfold mbind at 1, M_bind at 1.
  destruct (get_disk_info os s2) as [[disk|e] s3]; [|reflexivity].
  unfold mbind at 1, M_bind at 1.
  destruct (get_network_info os s3) as [[network|e] s4]; [|reflexivity].
  cbn [append_all sample_of fst snd assemble snap_timestamp snap_cpu
       snap_memory snap_disk snap_network snap_temperature snap_gpu].
  unfold mbind, M_bind, mret, M_ret.
  repeat match goal with
         | |- context [history_append ?k ?v ?s] =>
             destruct (history_append k v s) as [[[]|?] ?]; try reflexivity
         end.
Qed.

(** A pass that returns has appended its nine values; a pass that raises has
    appended nothing. *)
Lemma collect_snapshot_history os self :
  has_channels (history self) ->
  match collect_snapshot os self with
  | (Return snap, s') =>
      snap_timestamp snap = os_now os /\
      history s' = fold_left append_item (sample_of snap) (history self)
  | (Raise _, s') => history s' = history self
  end.
Proof.
  intros Hch. rewrite collect_snapshot_eq.
  pose proof (get_cpu_info_state os self) as H1.
  destruct (get_cpu_info os self) as [[cpu|e] s1]; cbn in H1; subst s1;
    [|reflexivity].
  pose proof (get_memory_info_state os self) as H2.
  destruct (get_memory_info os self) as [[memory|e] s2]; cbn in H2; subst s2;
    [|reflexivity].
  pose proof (get_disk_info_history os self) as H3.
  destruct (get_disk_info os self) as [[disk|e] s3]; cbn in H3;
    [|exact H3].
  pose proof (get_network_info_history os s3) as H4.
  destruct (get_network_info os s3) as [[network|e] s4]; cbn in H4;
    [|congruence].
  cbv zeta.
  destruct (append_all_returns
              (sample_of (assemble os self cpu memory disk network)) s4)
    as (s' & -> & Hhist & _).
  - rewrite H4, H3. exact Hch.
  - apply sample_of_keys.
  - split; [reflexivity|]. rewrite Hhist. congruence.
Qed.

Lemma get_cpu_info_returns os self :
  returns (os_cpu_percent os) -> returns (os_cpu_count os) ->
  returns (os_cpu_freq os) -> returns (os_per_cpu os) ->
  exists cpu, get_cpu_info os self = (Return cpu, self).
Proof.
  intros [a1 E1] [a2 E2] [a3 E3] [a4 E4].
  unfold get_cpu_info. run_method. rewrite E1, E2, E3, E4. cbn.
  eexists. reflexivity.
Qed.

Lemma get_memory_info_returns os self :
  returns (os_virtual_memory os) -> returns (os_swap_memory os) ->
  exists memory, get_memory_info os self = (Return memory, self).
Proof.
  intros [a1 E1] [a2 E2].
  unfold get_memory_info. run_method. rewrite E1, E2. cbn.
  eexists. reflexivity.
Qed.

Lemma collect_snapshot_returns os self :
  has_channels (history self) ->
  core_queries_return os self ->
  returns (value_of (collect_snapshot os) self).
Proof.
  intros Hch (H1 & H2 & H3 & H4 & H5 & H6 & H7 & H8 & H9 & H10).
  unfold value_of. rewrite collect_snapshot_eq.
  destruct (get_cpu_info_returns os self H1 H2 H3 H4) as [cpu ->].
  destruct (get_memory_info_returns os self H5 H6) as [memory ->].
  destruct H7 as [a7 E7], H8 as [a8 E8], H9 as [io E9], H10 as [prev E10].
  rewrite (get_disk_info_eq os self a7 a8 E7 E8). cbv beta iota zeta.
  rewrite (get_network_info_eq os _ io prev E9)
    by (destruct a8; exact E10).
  cbv beta iota zeta.
  match goal with
  | |- context [append_all ?items ?s] =>
      destruct (append_all_returns items s) as (s' & -> & _)
  end.
  - destruct a8; exact Hch.
  - apply sample_of_keys.
  - eexists. reflexivity.
Qed.

Lemma collect_snapshot_assembles os self snap s' :
  collect_snapshot os self = (Return snap, s') ->
  snap_temperature snap = get_temperature_info os /\
  snap_gpu snap = get_gpu_info Str.float (os_nvidia_smi os).
Proof.
  rewrite collect_snapshot_eq.
  destruct (get_cpu_info os self) as [[cpu|e] s1]; [|discriminate].
  destruct (get_memory_info os s1) as [[memory|e] s2]; [|discriminate].
  destruct (get_disk_info os s2) as [[disk|e] s3]; [|discriminate].
  destruct (get_network_info os s3) as [[network|e] s4]; [|discriminate].
  cbv zeta.
  destruct (append_all _ s4) as [[[]|e] s5]; [|discriminate].
  intros H. injection H as <- _. split; reflexivity.
Qed.

Lemma get_memory_info_raises os self e :
  os_virtual_memory os = Raise e ->
  get_memory_info os self = (Raise e, self).
Proof.
  intros H. unfold get_memory_info. run_method. rewrite H. reflexivity.
Qed.

Lemma get_cpu_info_run os self :
  get_cpu_info os self =
    (match os_cpu_percent os with
     | Raise e => Raise e
     | Return percent =>
         match os_cpu_count os with
         | Raise e => Raise e
         | Return count =>
             match os_cpu_freq os with
             | Raise e => Raise e
             | Return freq =>
                 match os_per_cpu os with
                 | Raise e => Raise e
                 | Return per_cpu =>
                     Return
                       {| cpu_percent := percent;
                          cpu_count := count;
                          cpu_frequency :=
                            match freq with Some f => f | None => 0%Q end;
                          cpu_per_cpu := per_cpu |}
                 end
             end
         end
     end, self).
Proof.
  unfold get_cpu_info. run_method.
  destruct (os_cpu_percent os); cbn; [|reflexivity].
  destruct (os_cpu_count os); cbn; [|reflexivity].
  destruct (os_cpu_freq os); cbn; [|reflexivity].
  destruct (os_per_cpu os); reflexivity.
Qed.

Lemma get_memory_info_run os self :
  get_memory_info os self =
    (match os_virtual_memory os with
     | Raise e => Raise e
     | Return memory =>
         match os_swap_memory os with
         | Raise e => Raise e
         | Return swap =>
             Return
               {| mem_percent := vm_percent memory;
                  mem_total := vm_total memory;
                  mem_available := vm_available memory;
                  mem_used := vm_used memory;
                  mem_swap_percent := sw_percent swap;
                  mem_swap_total := sw_total swap;
                  mem_swap_used := sw_used swap |}
         end
     end, self).
Proof.
  unfold get_memory_info. run_method.
  destruct (os_virtual_memory os); cbn; [|reflexivity].
  destruct (os_swap_memory os); reflexivity.
Qed.

Lemma get_disk_info_raises os self :
  (forall e, os_disk_usage os = Raise e ->
             get_disk_info os self = (Raise e, self)) /\
  (forall usage e,
     os_disk_usage os = Return usage -> os_disk_io_counters os = Raise e ->
     get_disk_info os self = (Raise e, self)).
Proof.
  split.
  - intros e H. unfold get_disk_info. run_method. rewrite H. reflexivity.
  - intros usage e Hu H. unfold get_disk_info. run_method.
    rewrite Hu. cbn. rewrite H. reflexivity.
Qed.

Lemma get_network_info_query_raises os self e :
  os_net_io_counters os = Raise e ->
  get_network_info os self = (Raise e, self).
Proof.
  intros H. unfold get_network_info. run_method. rewrite H. reflexivity.
Qed.

(** The first query that raises decides the pass. *)
Lemma collect_snapshot_first_error os self e :
  first_query_error os = Some e ->
  value_of (collect_snapshot os) self = Raise e.
Proof.
  unfold value_of, first_query_error.
  rewrite collect_snapshot_eq, get_cpu_info_run.
  destruct (os_cpu_percent os) as [a1|e1];
    [|intros H; injection H as <-; reflexivity].
  destruct (os_cpu_count os) as [a2|e2];
    [|intros H; injection H as <-; reflexivity].
  destruct (os_cpu_freq os) as [a3|e3];
    [|intros H; injection H as <-; reflexivity].
  destruct (os_per_cpu os) as [a4|e4];
    [|intros H; injection H as <-; reflexivity].
  cbv beta iota. rewrite get_memory_info_run.
  destruct (os_virtual_memory os) as [a5|e5];
    [|intros H; injection H as <-; reflexivity].
  destruct (os_swap_memory os) as [a6|e6];
    [|intros H; injection H as <-; reflexivity].
  cbv beta iota.
  destruct (os_disk_usage os) as [a7|e7] eqn:E7.
  2:{ intros H. injection H as <-.
      rewrite (proj1 (get_disk_info_raises os self) e7 E7). reflexivity. }
  destruct (os_disk_io_counters os) as [a8|e8] eqn:E8.
  2:{ intros H. injection H as <-.
      rewrite (proj2 (get_disk_info_raises os self) a7 e8 E7 E8).
      reflexivity. }
  rewrite (get_disk_info_eq os self a7 a8 E7 E8). cbv beta iota zeta.
  destruct (os_net_io_counters os) as [a9|e9] eqn:E9; [discriminate|].
  intros H. injection H as <-.
  rewrite (get_network_info_query_raises os _ e9 E9). reflexivity.
Qed.

(** ** C2: errors of the metric sources *)

(** The memory query raises, and so does the sampling pass. *)
Lemma memory_error_counterexample :
  value_of (collect_snapshot (memory_fails (sample_probe 2 3000 500)))
    sample_monitor
  = Raise (Exn "OSError" "virtual_memory").
Proof. vm_compute. reflexivity. Qed.

(** C2, amended: [collect_snapshot] returns a complete snapshot whenever the
    CPU, memory, disk and network queries answer (with network counters that
    are not [None]), whatever the temperature and GPU queries do: their
    exceptions are caught in [get_temperature_info] and [get_gpu_info],
    which mark the reading (the key ['error'], [available = False]).  An
    exception of a CPU, memory, disk or network query is not caught: the
    exception of the first of these nine queries that raises leaves
    [collect_snapshot], and the pass appends nothing to the history. *)
Theorem collect_snapshot_errors os self :
  has_channels (history self) ->
  (core_queries_return os self ->
   exists snap,
     value_of (collect_snapshot os) self = Return snap /\
     snap_temperature snap = get_temperature_info os /\
     snap_gpu snap = get_gpu_info Str.float (os_nvidia_smi os)) /\
  (forall e,
     os_has_sensors os = true -> os_sensors_temperatures os = Raise e ->
     get_temperature_info os = [("error", TStr (exn_str e))]) /\
  (forall e,
     os_nvidia_smi os = Raise e ->
     get_gpu_info Str.float (os_nvidia_smi os) = gpu_unavailable) /\
  (forall e,
     returns (os_cpu_percent os) -> returns (os_cpu_count os) ->
     returns (os_cpu_freq os) -> returns (os_per_cpu os) ->
     os_virtual_memory os = Raise e ->
     value_of (collect_snapshot os) self = Raise e) /\
  (forall e,
     value_of (collect_snapshot os) self = Raise e ->
     history (state_after (collect_snapshot os) self) = history self) /\
  (forall e,
     first_query_error os = Some e ->
     value_of (collect_snapshot os) self = Raise e /\
     history (state_after (collect_snapshot os) self) = history self).
Proof.
  intros Hch.
  assert (Hkeep : forall e,
            value_of (collect_snapshot os) self = Raise e ->
            history (state_after (collect_snapshot os) self) = history self).
  { intros e He. unfold value_of, state_after in *.
    pose proof (collect_snapshot_history os self Hch) as H.
    destruct (collect_snapshot os self) as [[snap|e'] s']; cbn in *;
      [discriminate|exact H]. }
  split; [|split; [|split; [|split; [|split; [exact Hkeep|]]]]].
  5:{ intros e He.
      pose proof (collect_snapshot_first_error os self e He) as Hraise.
      split; [exact Hraise|exact (Hkeep e Hraise)]. }
  - intros Hcore.
    destruct (collect_snapshot_returns os self Hch Hcore) as [snap Hsnap].
    exists snap. split; [exact Hsnap|].
    unfold value_of in Hsnap.
    destruct (collect_snapshot os self) as [r s'] eqn:E. cbn in Hsnap.
    subst r. exact (collect_snapshot_assembles _ _ _ _ E).
  - intros e Hhas He. unfold get_temperature_info. rewrite Hhas, He.
    reflexivity.
  - intros e He. rewrite He. reflexivity.
  - intros e H1 H2 H3 H4 He. unfold value_of.
    rewrite collect_snapshot_eq.
    destruct (get_cpu_info_returns os self H1 H2 H3 H4) as [cpu ->].
    rewrite (get_memory_info_raises os self e He). reflexivity.
Qed.

Lemma sample_monitor_channels : has_channels (history sample_monitor).
Proof.
  intros key Hkey. apply channels_cases in Hkey.
  repeat (destruct Hkey as [->|Hkey]); try subst key;
    vm_compute; eauto.
Qed.

Lemma collect_snapshot_errors_witness :
  exists snap,
    value_of (collect_snapshot (sample_probe 2 3000 500)) sample_monitor
      = Return snap /\
    snap_temperature snap = get_temperature_info (sample_probe 2 3000 500) /\
    snap_gpu snap
      = get_gpu_info Str.float (os_nvidia_smi (sample_probe 2 3000 500)).
Proof.
  refine (proj1 (collect_snapshot_errors (sample_probe 2 3000 500)
                   sample_monitor sample_monitor_channels) _).
  unfold core_queries_return, returns. cbn.
  repeat split; eexists; reflexivity.
Defined.

(** ** C4: the channels grow together *)

Lemma init_lockstep t_start net_io disk_io t_prev :
  lockstep 0
    (history (SystemMonitor_init t_start net_io disk_io t_prev)) /\
  history (SystemMonitor_init t_start net_io disk_io t_prev) !! "timestamps"
    = Some [].
Proof.
  split; [|reflexivity].
  intros key Hkey. apply channels_cases in Hkey.
  exists []. split; [|reflexivity].
  repeat (destruct Hkey as [->|Hkey]); try subst key; reflexivity.
Qed.

Lemma clear_lockstep t n self :
  lockstep n (history self) ->
  lockstep 0 (history (state_after (clear_history t) self)) /\
  history (state_after (clear_history t) self) !! "timestamps" = Some [].
Proof.
  intros H. unfold state_after. rewrite clear_history_eq. cbn.
  assert (Hall : forall key, key ∈ channels ->
            ((fun _ : list Q => @nil Q) <$> history self) !! key = Some []).
  { intros key Hkey. rewrite lookup_fmap.
    destruct (H key Hkey) as (l & -> & _). reflexivity. }
  split.
  - intros key Hkey. exists []. split; [apply Hall, Hkey|reflexivity].
  - apply Hall. unfold channels. set_solver.
Qed.

Lemma collect_lockstep os self n ts :
  lockstep n (history self) ->
  history self !! "timestamps" = Some ts ->
  match value_of (collect_snapshot os) self with
  | Return _ =>
      lockstep (S n) (history (state_after (collect_snapshot os) self)) /\
      history (state_after (collect_snapshot os) self) !! "timestamps"
        = Some (ts ++ [os_now os])%list
  | Raise _ =>
      history (state_after (collect_snapshot os) self) = history self
  end.
Proof.
  intros Hlock Hts. unfold value_of, state_after.
  pose proof (collect_snapshot_history os self
                (lockstep_has_channels _ _ Hlock)) as H.
  destruct (collect_snapshot os self) as [[snap|e] s']; cbn; [|exact H].
  destruct H as [Hnow ->]. split.
  - apply lockstep_sample, Hlock.
  - rewrite fold_append_item_lookup by apply sample_of_keys.
    cbn. rewrite Hts, Hnow. reflexivity.
Qed.

Lemma collect_all_lockstep probes : forall self n ts,
  lockstep n (history self) ->
  history self !! "timestamps" = Some ts ->
  all_return probes self ->
  lockstep (n + length probes) (history (collect_all probes self)) /\
  history (collect_all probes self) !! "timestamps"
    = Some (ts ++ (os_now <$> probes))%list.
Proof.
  induction probes as [|os rest IH]; intros self n ts Hlock Hts Hall.
  - cbn. rewrite Nat.add_0_r, app_nil_r. split; assumption.
  - destruct Hall as [[snap Hret] Hrest].
    pose proof (collect_lockstep os self n ts Hlock Hts) as H.
    rewrite Hret in H. destruct H as [Hlock' Hts'].
    destruct (IH _ _ _ Hlock' Hts' Hrest) as [Hl Ht].
    cbn [collect_all length fmap list_fmap].
    replace (n + S (length rest))%nat with (S n + length rest)%nat by lia.
    split; [exact Hl|].
    rewrite Ht, <- app_assoc. reflexivity.
Qed.

(** The wall clock is set back between two passes. *)
Lemma timestamps_counterexample :
  let probes := [sample_probe 10 3000 500; sample_probe 5 3000 500] in
  all_return probes sample_monitor /\
  history (collect_all probes sample_monitor) !! "timestamps"
    = Some [10%Q; 5%Q] /\
  ~ Sorted Qle [10%Q; 5%Q].
Proof.
  cbv zeta. split; [|split].
  - cbn [all_return]. repeat split; eexists; vm_compute; reflexivity.
  - vm_compute. reflexivity.
  - intros H. inversion H as [|? ? _ Hhd]; subst.
    inversion Hhd as [|? ? Hle]; subst.
    vm_compute in Hle. apply Hle. reflexivity.
Qed.

(** C4, amended: on a freshly constructed or freshly cleared history, after
    N calls of [collect_snapshot] that return, each of the nine channels has
    length exactly N, and the timestamps channel lists the N readings of
    [datetime.now()] in call order, so that it is non-decreasing whenever
    those readings are; the channels keep a common length, which a returning
    pass raises by one, a raising pass leaves, and [clear_history] resets
    to 0. *)
Theorem history_lockstep :
  (forall t_start net_io disk_io t_prev,
     lockstep 0
       (history (SystemMonitor_init t_start net_io disk_io t_prev))) /\
  (forall self n t,
     lockstep n (history self) ->
     lockstep 0 (history (state_after (clear_history t) self))) /\
  (forall self n os,
     lockstep n (history self) ->
     match value_of (collect_snapshot os) self with
     | Return _ =>
         lockstep (S n) (history (state_after (collect_snapshot os) self))
     | Raise _ =>
         lockstep n (history (state_after (collect_snapshot os) self))
     end) /\
  (forall self probes,
     lockstep 0 (history self) ->
     all_return probes self ->
     lockstep (length probes) (history (collect_all probes self)) /\
     history (collect_all probes self) !! "timestamps"
       = Some (os_now <$> probes) /\
     (Sorted Qle (os_now <$> probes) ->
      exists timestamps,
        history (collect_all probes self) !! "timestamps" = Some timestamps /\
        Sorted Qle timestamps)).
Proof.
  split; [|split; [|split]].
  - intros. apply init_lockstep.
  - intros self n t H. apply (clear_lockstep t n self H).
  - intros self n os H.
    assert (Hts : exists ts, history self !! "timestamps" = Some ts).
    { destruct (H "timestamps") as (ts & Hts & _);
        [unfold channels; set_solver|eauto]. }
    destruct Hts as [ts Hts].
    pose proof (collect_lockstep os self n ts H Hts) as Hc.
    destruct (value_of (collect_snapshot os) self);
      [apply Hc|rewrite Hc; exact H].
  - intros self probes H Hall.
    assert (Hts : history self !! "timestamps" = Some []).
    { destruct (H "timestamps") as (ts & Hts & Hlen);
        [unfold channels; set_solver|].
      destruct ts; [exact Hts|discriminate]. }
    destruct (collect_all_lockstep probes self 0 [] H Hts Hall) as [Hl Ht].
    cbn in Hl, Ht. repeat split; [exact Hl|exact Ht|].
    intros Hsorted. eexists. split; [exact Ht|exact Hsorted].
Qed.

Lemma history_lockstep_witness :
  let probes := [sample_probe 1 3000 500; sample_probe 2 4000 600] in
  lockstep 2 (history (collect_all probes sample_monitor)) /\
  history (collect_all probes sample_monitor) !! "timestamps"
    = Some [1%Q; 2%Q].
Proof.
  cbv zeta.
  pose proof (proj2 (proj2 (proj2 history_lockstep)) sample_monitor
                [sample_probe 1 3000 500; sample_probe 2 4000 600]) as H.
  destruct H as (Hl & Ht & _).
  - apply init_lockstep.
  - cbn [all_return]. repeat split; eexists; vm_compute; reflexivity.
  - split; [exact Hl|exact Ht].
Defined.

(** ** C7: reads after a clear *)

Lemma read_history_eq n : forall self,
  read_history n self = (replicate n (Return (history self)), self).
Proof.
  induction n as [|n IH]; intros self; [reflexivity|].
  cbn [read_history]. unfold get_history at 1 2 3. run_method.
  rewrite IH. reflexivity.
Qed.

(** C7: after [clear_history], every [get_history] read, however many are
    made before the next append, returns a history whose channels are all
    empty, and leaves the monitor as it is. *)
Theorem clear_history_reads self t n :
  has_channels (history self) ->
  let cleared := state_after (clear_history t) self in
  snd (read_history n cleared) = cleared /\
  length (fst (read_history n cleared)) = n /\
  Forall
    (fun read =>
       exists h, read = Return h /\
         forall key, key ∈ channels ->
           exists l, h !! key = Some l /\ l = [] /\ length l = 0%nat)
    (fst (read_history n cleared)).
Proof.
  intros Hch cleared. rewrite read_history_eq. cbn [fst snd].
  split; [reflexivity|]. split; [apply length_replicate|].
  apply Forall_replicate. eexists. split; [reflexivity|].
  intros key Hkey. exists []. split; [|split; reflexivity].
  subst cleared. unfold state_after. rewrite clear_history_eq. cbn.
  rewrite lookup_fmap. destruct (Hch key Hkey) as [l ->]. reflexivity.
Qed.

Lemma clear_history_reads_witness :
  let cleared :=
    state_after (clear_history 9)
      (collect_all [sample_probe 1 3000 500] sample_monitor) in
  snd (read_history 3 cleared) = cleared /\
  length (fst (read_history 3 cleared)) = 3%nat.
Proof.
  cbv zeta.
  pose proof (clear_history_reads
                (collect_all [sample_probe 1 3000 500] sample_monitor) 9 3)
    as H.
  destruct H as (H1 & H2 & _).
  - intros key Hkey. apply channels_cases in Hkey.
    repeat (destruct Hkey as [->|Hkey]); try subst key;
      vm_compute; eauto.
  - split; [exact H1|exact H2].
Defined.

(** ** C6: the GPU query *)

Lemma gpu_parse_available float values :
  available (gpu_parse float values) = true.
Proof.
  unfold gpu_parse.
  destruct (float (nth 0 values "")); [|reflexivity].
  destruct (float (nth 1 values "")); [|reflexivity].
  destruct (float (nth 2 values "")); reflexivity.
Qed.

(** A reading that is not available has 0 in every numeric field. *)
Lemma get_gpu_info_unavailable float run :
  available (get_gpu_info float run) = false ->
  get_gpu_info float run = gpu_unavailable.
Proof.
  unfold get_gpu_info. destruct run as [result|e]; [|reflexivity].
  destruct (returncode result =? 0); [|reflexivity].
  destruct (3 <=? length (Str.split ", " (Str.strip (stdout result))))%nat;
    [|reflexivity].
  rewrite gpu_parse_available. discriminate.
Qed.

(** A failed run, a non-zero exit code and an output of fewer than three
    fields give the reading that is not available. *)
Lemma get_gpu_info_failures float :
  (forall e, get_gpu_info float (Raise e) = gpu_unavailable) /\
  (forall result,
     returncode result <> 0 ->
     get_gpu_info float (Return result) = gpu_unavailable) /\
  (forall result,
     (length (Str.split ", " (Str.strip (stdout result))) < 3)%nat ->
     get_gpu_info float (Return result) = gpu_unavailable).
Proof.
  repeat split.
  - intros result H. unfold get_gpu_info.
    apply Z.eqb_neq in H. rewrite H. reflexivity.
  - intros result H. unfold get_gpu_info.
    apply Nat.leb_gt in H. rewrite H.
    destruct (returncode result =? 0); reflexivity.
Qed.

(** An output of three fields or more, with exit code 0, gives a reading
    marked available whatever [float] makes of the fields. *)
Lemma get_gpu_info_three_fields float result :
  returncode result = 0 ->
  (3 <= length (Str.split ", " (Str.strip (stdout result))))%nat ->
  available (get_gpu_info float (Return result)) = true.
Proof.
  intros Hrc Hlen. unfold get_gpu_info. rewrite Hrc, Z.eqb_refl.
  apply Nat.leb_le in Hlen. rewrite Hlen. apply gpu_parse_available.
Qed.

(** C6, on the code: when [nvidia-smi] exits with 0 and prints the line
    [[N/A], 1024, 45], whose first field is not a number, [get_gpu_info]
    returns a reading with [available = True] and 0 in every numeric field:
    [available] is set before the fields are parsed, and the [ValueError] of
    [float] is caught after it. *)
Theorem gpu_malformed_output :
  get_gpu_info Str.float smi_not_a_number
  = {| available := true; usage := 0; memory := 0; temperature := 0 |}.
Proof. vm_compute. reflexivity. Qed.

(** ** C3: a second start *)

Lemma monitoring_loop_turn_guard os now ui :
  start_button (monitoring_loop_turn os now ui) = start_button ui /\
  (loops (monitoring_loop_turn os now ui) <= loops ui)%nat.
Proof.
  unfold monitoring_loop_turn.
  destruct (is_monitoring ui); [|cbn; split; [reflexivity|lia]].
  destruct (collect_snapshot os (monitor ui)) as [[snap|e] m];
    [|cbn; split; [reflexivity|lia]].
  destruct (recording_start_time ui) as [started|];
    [|cbn; split; [reflexivity|lia]].
  destruct (Qle_bool (recording_duration ui - (now - started)) 0);
    cbn; split; try reflexivity; lia.
Qed.

Lemma step_guard e ui :
  keeps_running e = true ->
  start_button ui = DISABLED ->
  start_button (step e ui) = DISABLED /\ (loops (step e ui) <= loops ui)%nat.
Proof.
  intros He Hbtn. destruct e as [t now| |os now|]; try discriminate; cbn.
  - rewrite Hbtn. split; [exact Hbtn|lia].
  - destruct (loops ui) eqn:E; [split; [exact Hbtn|lia]|].
    destruct (monitoring_loop_turn_guard os now ui) as [H1 H2].
    rewrite H1, <- E. split; [exact Hbtn|exact H2].
Qed.

Lemma run_guard events : forall ui,
  forallb keeps_running events = true ->
  start_button ui = DISABLED ->
  start_button (run events ui) = DISABLED /\
  (loops (run events ui) <= loops ui)%nat.
Proof.
  induction events as [|e rest IH]; intros ui Hall Hbtn.
  - cbn. split; [exact Hbtn|lia].
  - cbn in Hall. apply andb_true_iff in Hall as [He Hrest].
    destruct (step_guard e ui He Hbtn) as [H1 H2].
    destruct (IH (step e ui) Hrest H1) as [H3 H4].
    unfold run in *. cbn [fold_left]. split; [exact H3|lia].
Qed.

(** While monitoring is active, [start_monitoring] is called again. *)
Lemma second_start_counterexample :
  let running := start_monitoring 0 0 (MonitorUI_init sample_monitor) in
  is_monitoring running = true /\
  loops running = 1%nat /\
  loops (start_monitoring 1 1 running) = 2%nat.
Proof. cbv zeta. repeat split; reflexivity. Qed.

(** C3, amended: [start_monitoring] has no check of its own: every call,
    also one made while monitoring is active, sets [is_monitoring], clears
    the history (every channel of the monitor keeps its key and holds the
    empty list, [start_time] is the clock's reading, the counters and
    [_prev_time] of the previous reading stay), notes the start of the
    recording and starts one more sampling loop.
    What keeps a second loop away is the start button, which
    [start_monitoring] disables: a click on the disabled button calls
    nothing, so after a start, through any sequence of start clicks and
    turns of the loop with no stop click and no completion callback, the
    button stays disabled and the number of sampling loops does not grow. *)
Theorem start_monitoring_guard :
  (forall t now ui,
     loops (start_monitoring t now ui) = S (loops ui) /\
     is_monitoring (start_monitoring t now ui) = true /\
     start_button (start_monitoring t now ui) = DISABLED /\
     monitor (start_monitoring t now ui)
       = state_after (clear_history t) (monitor ui) /\
     (forall key,
        history (monitor (start_monitoring t now ui)) !! key
        = (fun _ : list Q => @nil Q) <$> history (monitor ui) !! key) /\
     (forall key data,
        history (monitor (start_monitoring t now ui)) !! key = Some data ->
        data = []) /\
     start_time (monitor (start_monitoring t now ui)) = t /\
     _prev_net_io (monitor (start_monitoring t now ui))
       = _prev_net_io (monitor ui) /\
     _prev_disk_io (monitor (start_monitoring t now ui))
       = _prev_disk_io (monitor ui) /\
     _prev_time (monitor (start_monitoring t now ui))
       = _prev_time (monitor ui) /\
     recording_start_time (start_monitoring t now ui) = Some now) /\
  (forall t now ui, start_button ui = DISABLED ->
     step (ClickStart t now) ui = ui) /\
  (forall t now ui events,
     forallb keeps_running events = true ->
     let started := start_monitoring t now ui in
     start_button (run events started) = DISABLED /\
     (loops (run events started) <= S (loops ui))%nat).
Proof.
  split; [|split].
  - intros t now ui.
    assert (Hkey : forall key,
              history (monitor (start_monitoring t now ui)) !! key
              = (fun _ : list Q => @nil Q) <$> history (monitor ui) !! key).
    { intros key. unfold start_monitoring. cbn [monitor].
      unfold state_after. rewrite clear_history_eq. cbn.
      apply lookup_fmap. }
    split; [reflexivity|]. split; [reflexivity|]. split; [reflexivity|].
    split; [reflexivity|]. split; [exact Hkey|].
    split; [|repeat split; reflexivity].
    intros key data Hdata. rewrite Hkey in Hdata.
    destruct (history (monitor ui) !! key) as [old|]; cbn in Hdata;
      [|discriminate].
    injection Hdata as <-. reflexivity.
  - intros t now ui H. cbn. rewrite H. reflexivity.
  - intros t now ui events Hall. cbv zeta.
    apply (run_guard events (start_monitoring t now ui) Hall).
    reflexivity.
Qed.

Lemma start_monitoring_guard_witness :
  let started := start_monitoring 0 0 (MonitorUI_init sample_monitor) in
  let events :=
    [ClickStart 1 1; LoopTurn (sample_probe 2 3000 500) 2; ClickStart 3 3] in
  start_button (run events started) = DISABLED /\
  (loops (run events started) <= 1)%nat.
Proof.
  cbv zeta.
  apply (proj2 (proj2 start_monitoring_guard) 0%Q 0%Q
           (MonitorUI_init sample_monitor)).
  reflexivity.
Defined.

(** ** C8: the statistics of a channel *)

Lemma Qsum_from (l : list Q) : forall a,
  (fold_left Qplus l a == a + Qsum l)%Q.
Proof.
  unfold Qsum. induction l as [|x l IH]; intros a; cbn.
  - ring.
  - rewrite (IH (a + x)%Q), (IH (0 + x)%Q). ring.
Qed.

Lemma Qsum_cons (x : Q) (l : list Q) : (Qsum (x :: l) == x + Qsum l)%Q.
Proof. unfold Qsum at 1. cbn. rewrite Qsum_from. ring. Qed.

Lemma count_cons (x : Q) (l : list Q) :
  (statistics.count (x :: l) == statistics.count l + 1)%Q.
Proof.
  unfold statistics.count. cbn [length].
  rewrite Nat2Z.inj_succ, <- Z.add_1_r, inject_Z_plus. reflexivity.
Qed.

Lemma count_pos (data : list Q) :
  (0 < length data)%nat -> (0 < statistics.count data)%Q.
Proof.
  intros H. unfold statistics.count.
  change 0%Q with (inject_Z 0). rewrite <- Zlt_Qlt. lia.
Qed.

Lemma squared_deviations_expand (m : Q) (data : list Q) :
  (squared_deviations m data ==
   Qsum (map (fun x => x * x) data) - 2 * m * Qsum data
   + statistics.count data * m * m)%Q.
Proof.
  unfold squared_deviations. induction data as [|x data IH].
  - unfold Qsum, statistics.count. cbn. ring.
  - cbn [map]. rewrite !Qsum_cons, count_cons, IH. ring.
Qed.

Lemma ss_squared_deviations (data : list Q) :
  (0 < length data)%nat ->
  (statistics.ss data == squared_deviations (statistics.mean data) data)%Q.
Proof.
  intros H. apply count_pos in H.
  rewrite squared_deviations_expand. unfold statistics.ss, statistics.mean.
  field. intros Hz. rewrite Hz in H. exact (Qlt_irrefl _ H).
Qed.






(** The table of a history of three samples. *)
Example statistics_table :
  _generate_statistics
    (list_to_map
       [("timestamps", [1; 2; 3]%Q); ("cpu_percent", [10; 20; 30]%Q);
        ("memory_percent", [50; 50; 50]%Q); ("disk_read", []);
        ("disk_write", []); ("net_sent", []); ("net_recv", []);
        ("temperatures", [0; 0; 0]%Q); ("gpu_usage", [0; 0; 0]%Q)])
  = [["리소스"; "평균"; "최소"; "최대"; "표준편차"];
     ["CPU 사용률 (%)"; "20.00"; "10.00"; "30.00"; "10.00"];
     ["메모리 사용률 (%)"; "50.00"; "50.00"; "50.00"; "0.00"]].
Proof. vm_compute. reflexivity. Qed.

(** ** C9 and further evaluations *)

Example format_bytes_tb : format_bytes (inject_Z (3 * 1024 ^ 4)) = "3.00 TB".
Proof. vm_compute. reflexivity. Qed.

Example format_bytes_below : format_bytes 1023 = "1023.00 B".
Proof. vm_compute. reflexivity. Qed.

Example fmt2_negative : Fmt.fmt2 (- (5 # 4)) = "-1.25".
Proof. vm_compute. reflexivity. Qed.

Example fmt2_sqrt_two : Fmt.fmt2_sqrt 2 = "1.41".
Proof. vm_compute. reflexivity. Qed.

Example split_fields :
  Str.split ", " (Str.strip ("30, 1024, 45" ++ line_feed))
  = ["30"; "1024"; "45"].
Proof. vm_compute. reflexivity. Qed.

Example gpu_well_formed :
  get_gpu_info Str.float
    (Return {| returncode := 0; stdout := "30, 1024, 45" ++ line_feed |})
  = {| available := true; usage := 30; memory := 1024; temperature := 45 |}.
Proof. vm_compute. reflexivity. Qed.

(** C9: [format_bytes] maps 0 to "0.00 B", 1536 to "1.50 KB" and
    [1024*1024*1024*2] to "2.00 GB". *)
Theorem format_bytes_examples :
  format_bytes 0 = "0.00 B" /\
  format_bytes 1536 = "1.50 KB" /\
  format_bytes (inject_Z (1024 * 1024 * 1024 * 2)) = "2.00 GB".
Proof. repeat split; vm_compute; reflexivity. Qed.

(** * Further properties of [SystemMonitor] *)

(** ** What each reader writes *)

Lemma get_disk_info_state os self :
  snd (get_disk_info os self) =
    match os_disk_usage os, os_disk_io_counters os with
    | Return _, Return (Some io) => set_prev_disk_io (Some io) self
    | _, _ => self
    end.
Proof.
  unfold get_disk_info. run_method.
  destruct (os_disk_usage os); cbn; [|reflexivity].
  destruct (os_disk_io_counters os) as [[io|]|]; reflexivity.
Qed.

Lemma get_network_info_raises os self e :
  os_net_io_counters os = Raise e ->
  get_network_info os self = (Raise e, self).
Proof.
  intros H. unfold get_network_info. run_method. rewrite H. reflexivity.
Qed.

(** X1: the readers write to the rate baseline only.  [get_cpu_info] and
    [get_memory_info] leave the monitor as it is; [get_disk_info] replaces
    [_prev_disk_io] by the counters it has read, unless they are [None] or a
    query raised, and writes nothing else, so that it never advances
    [_prev_time]; [get_network_info], when it returns, has set
    [_prev_net_io] to the counters read and [_prev_time] to its clock
    reading, and when its query raises it has written nothing. *)
Theorem readers_frame os self :
  state_after (get_cpu_info os) self = self /\
  state_after (get_memory_info os) self = self /\
  state_after (get_disk_info os) self =
    match os_disk_usage os, os_disk_io_counters os with
    | Return _, Return (Some io) => set_prev_disk_io (Some io) self
    | _, _ => self
    end /\
  _prev_time (state_after (get_disk_info os) self) = _prev_time self /\
  (forall info,
     value_of (get_network_info os) self = Return info ->
     exists io,
       os_net_io_counters os = Return (Some io) /\
       state_after (get_network_info os) self =
         set_prev_time (os_time_net os) (set_prev_net_io (Some io) self)) /\
  (forall e,
     os_net_io_counters os = Raise e ->
     get_network_info os self = (Raise e, self)).
Proof.
  unfold state_after. repeat split.
  - apply get_cpu_info_state.
  - apply get_memory_info_state.
  - apply get_disk_info_state.
  - rewrite get_disk_info_state.
    destruct (os_disk_usage os); [|reflexivity].
    destruct (os_disk_io_counters os) as [[io|]|]; reflexivity.
  - intros info Hret.
    destruct (get_network_info_returns _ _ _ Hret) as [io Hio].
    exists io. split; [exact Hio|].
    unfold value_of in Hret. revert Hret.
    unfold get_network_info. run_method. rewrite Hio. cbn.
    destruct (Qltb 0 (os_time_net os - _prev_time self)); cbn;
      [|reflexivity].
    destruct (_prev_net_io self); cbn; [reflexivity|discriminate].
  - apply get_network_info_raises.
Qed.

(** ** What a returning pass does *)

Lemma collect_snapshot_inv os self snap s' :
  has_channels (history self) ->
  collect_snapshot os self = (Return snap, s') ->
  exists cpu memory disk network s3 s4,
    get_cpu_info os self = (Return cpu, self) /\
    get_memory_info os self = (Return memory, self) /\
    get_disk_info os self = (Return disk, s3) /\
    get_network_info os s3 = (Return network, s4) /\
    snap = assemble os self cpu memory disk network /\
    history s' = fold_left append_item (sample_of snap) (history self) /\
    same_counters s4 s'.
Proof.
  intros Hch. rewrite collect_snapshot_eq.
  pose proof (get_cpu_info_state os self) as H1.
  destruct (get_cpu_info os self) as [[cpu|e] s1] eqn:E1; cbn in H1;
    subst s1; [|discriminate].
  pose proof (get_memory_info_state os self) as H2.
  destruct (get_memory_info os self) as [[memory|e] s2] eqn:E2; cbn in H2;
    subst s2; [|discriminate].
  pose proof (get_disk_info_history os self) as H3.
  destruct (get_disk_info os self) as [[disk|e] s3] eqn:E3; cbn in H3;
    [|discriminate].
  pose proof (get_network_info_history os s3) as H4.
  destruct (get_network_info os s3) as [[network|e] s4] eqn:E4; cbn in H4;
    [|discriminate].
  cbv zeta.
  destruct (append_all_returns
              (sample_of (assemble os self cpu memory disk network)) s4)
    as (s5 & Hrun & Hhist & Hsame).
  - rewrite H4, H3. exact Hch.
  - apply sample_of_keys.
  - rewrite Hrun. intros H. injection H as <- <-.
    exists cpu, memory, disk, network, s3, s4.
    do 5 (split; [first [assumption|reflexivity]|]).
    split; [rewrite Hhist; congruence|exact Hsame].
Qed.

Lemma sample_appended h snap key value :
  has_channels h -> key ∈ channels ->
  assoc key (sample_of snap) = Some value ->
  appended h (fold_left append_item (sample_of snap) h) key value.
Proof.
  intros Hch Hkey Hv. destruct (Hch key Hkey) as [l Hl].
  exists l. split; [exact Hl|].
  rewrite fold_append_item_lookup by apply sample_of_keys.
  rewrite Hv, Hl. reflexivity.
Qed.

(** X2: a pass of [collect_snapshot] that returns has added to each of the
    nine channels the value of its snapshot: the timestamp, the CPU and
    memory percentages, the disk and network rates, the average temperature
    and the GPU usage; the snapshot carries the reading of [datetime.now()]
    and the time elapsed since [start_time], which the pass does not
    change. *)
Theorem collect_snapshot_appends os self snap :
  has_channels (history self) ->
  value_of (collect_snapshot os) self = Return snap ->
  let h := history self in
  let h' := history (state_after (collect_snapshot os) self) in
  snap_timestamp snap = os_now os /\
  snap_elapsed_time snap = (os_time os - start_time self)%Q /\
  start_time (state_after (collect_snapshot os) self) = start_time self /\
  appended h h' "timestamps" (snap_timestamp snap) /\
  appended h h' "cpu_percent" (cpu_percent (snap_cpu snap)) /\
  appended h h' "memory_percent" (mem_percent (snap_memory snap)) /\
  appended h h' "disk_read" (read_speed (snap_disk snap)) /\
  appended h h' "disk_write" (write_speed (snap_disk snap)) /\
  appended h h' "net_sent" (sent_speed (snap_network snap)) /\
  appended h h' "net_recv" (recv_speed (snap_network snap)) /\
  appended h h' "temperatures"
    (average_temperature (snap_temperature snap)) /\
  appended h h' "gpu_usage" (usage (snap_gpu snap)).
Proof.
  intros Hch Hret. cbv zeta. unfold value_of, state_after in *.
  destruct (collect_snapshot os self) as [r s'] eqn:E. cbn in *. subst r.
  destruct (collect_snapshot_inv os self snap s' Hch E)
    as (cpu & memory & disk & network & s3 & s4
        & _ & _ & Hd & Hn & Hsnap & Hhist & Hsame).
  assert (Hstart : start_time s' = start_time self).
  { destruct Hsame as [-> _].
    assert (H4 : start_time s4 = start_time s3).
    { revert Hn. unfold get_network_info. run_method.
      destruct (os_net_io_counters os) as [net_io|]; cbn; [|discriminate].
      destruct (Qltb 0 (os_time_net os - _prev_time s3)); cbn.
      - destruct net_io; cbn; [|discriminate].
        destruct (_prev_net_io s3); cbn; [|discriminate].
        intros H. injection H as _ <-. reflexivity.
      - destruct net_io; cbn; [|discriminate].
        intros H. injection H as _ <-. reflexivity. }
    rewrite H4. pose proof (get_disk_info_state os self) as H3.
    rewrite Hd in H3. cbn in H3. rewrite H3.
    destruct (os_disk_usage os); [|reflexivity].
    destruct (os_disk_io_counters os) as [[io|]|]; reflexivity. }
  rewrite Hhist.
  split; [subst snap; reflexivity|].
  split; [subst snap; reflexivity|].
  split; [exact Hstart|].
  repeat split; apply sample_appended; try exact Hch;
    try reflexivity; unfold channels; set_solver.
Qed.

Lemma collect_snapshot_appends_witness :
  exists snap,
    value_of (collect_snapshot (sample_probe 2 3000 500)) sample_monitor
      = Return snap /\
    appended (history sample_monitor)
      (history (state_after (collect_snapshot (sample_probe 2 3000 500))
                  sample_monitor))
      "disk_read" (read_speed (snap_disk snap)).
Proof.
  eexists. split; [vm_compute; reflexivity|].
  refine (proj1 (proj2 (proj2 (proj2 (proj2 (proj2 (proj2
            (collect_snapshot_appends (sample_probe 2 3000 500)
               sample_monitor _ sample_monitor_channels _)))))))).
  vm_compute. reflexivity.
Defined.

(** ** Successive passes *)

Lemma has_channels_fold items : forall h,
  has_channels h -> has_channels (fold_left append_item items h).
Proof.
  induction items as [|item rest IH]; intros h H; [exact H|].
  cbn. apply IH, has_channels_append_item, H.
Qed.

Lemma has_channels_collect os self :
  has_channels (history self) ->
  has_channels (history (state_after (collect_snapshot os) self)).
Proof.
  intros Hch. unfold state_after.
  pose proof (collect_snapshot_history os self Hch) as H.
  destruct (collect_snapshot os self) as [[snap|e] s']; cbn.
  - destruct H as [_ ->]. apply has_channels_fold, Hch.
  - rewrite H. exact Hch.
Qed.

(** The rates of a snapshot, from the monitor the pass started on. *)
Lemma collect_snapshot_rates os self snap :
  has_channels (history self) ->
  value_of (collect_snapshot os) self = Return snap ->
  exists io prev disk_io,
    os_net_io_counters os = Return (Some io) /\
    os_disk_io_counters os = Return disk_io /\
    (Qltb 0 (os_time_net os - _prev_time self) = true ->
     _prev_net_io self = Some prev) /\
    (let time_delta := (os_time_net os - _prev_time self)%Q in
     sent_speed (snap_network snap) =
       (if Qltb 0 time_delta
        then per_second (bytes_sent io) (bytes_sent prev) time_delta
        else 0%Q) /\
     recv_speed (snap_network snap) =
       (if Qltb 0 time_delta
        then per_second (bytes_recv io) (bytes_recv prev) time_delta
        else 0%Q)) /\
    (read_speed (snap_disk snap), write_speed (snap_disk snap)) =
      disk_speeds (os_time_disk os - _prev_time self) disk_io
        (_prev_disk_io self) /\
    let s' := state_after (collect_snapshot os) self in
    _prev_net_io s' = Some io /\
    _prev_time s' = os_time_net os /\
    _prev_disk_io s' =
      match disk_io with
      | Some d => Some d
      | None => _prev_disk_io self
      end.
Proof.
  intros Hch Hret. unfold value_of, state_after in *.
  destruct (collect_snapshot os self) as [r s'] eqn:E. cbn in *. subst r.
  destruct (collect_snapshot_inv os self snap s' Hch E)
    as (cpu & memory & disk & network & s3 & s4
        & _ & _ & Hd & Hn & Hsnap & _ & Hsame).
  assert (Hdret : value_of (get_disk_info os) self = Return disk)
    by (unfold value_of; rewrite Hd; reflexivity).
  destruct (get_disk_info_returns _ _ _ Hdret) as (u & dio & Hu & Hdio).
  rewrite (get_disk_info_eq os self u dio Hu Hdio) in Hd.
  cbv zeta in Hd. injection Hd as <- <-.
  assert (Hnret : value_of (get_network_info os)
                    match dio with
                    | Some io => set_prev_disk_io (Some io) self
                    | None => self
                    end = Return network)
    by (unfold value_of; rewrite Hn; reflexivity).
  destruct (get_network_info_returns _ _ _ Hnret) as [io Hio].
  set (s3 := match dio with
             | Some d => set_prev_disk_io (Some d) self
             | None => self
             end) in *.
  assert (Ht3 : _prev_time s3 = _prev_time self)
    by (subst s3; destruct dio; reflexivity).
  assert (Hn3 : _prev_net_io s3 = _prev_net_io self)
    by (subst s3; destruct dio; reflexivity).
  assert (Hd3 : _prev_disk_io s3 =
                match dio with
                | Some d => Some d
                | None => _prev_disk_io self
                end)
    by (subst s3; destruct dio; reflexivity).
  revert Hn. unfold get_network_info. run_method. rewrite Hio. cbn.
  rewrite Ht3, Hn3.
  destruct Hsame as (_ & Hs1 & Hs2 & Hs3).
  destruct (Qltb 0 (os_time_net os - _prev_time self)) eqn:Etd; cbn.
  - destruct (_prev_net_io self) as [prev|] eqn:Eprev; cbn; [|discriminate].
    intros H. injection H as <- <-.
    exists io, prev, dio. subst snap. cbn.
    split; [reflexivity|]. split; [exact Hdio|]. split; [reflexivity|].
    split; [split; reflexivity|]. split; [symmetry; apply surjective_pairing|].
    rewrite Hs1, Hs2, Hs3. cbn. rewrite Hd3. repeat split; reflexivity.
  - intros H. injection H as <- <-.
    exists io, io, dio. subst snap. cbn.
    split; [reflexivity|]. split; [exact Hdio|]. split; [discriminate|].
    split; [split; reflexivity|]. split; [symmetry; apply surjective_pairing|].
    rewrite Hs1, Hs2, Hs3. cbn. rewrite Hd3. repeat split; reflexivity.
Qed.

(** X3: in two passes that return one after the other, the network rates of
    the second are measured from the counters and the clock reading of the
    first, and so are its disk rates when both passes read disk counters:
    the disk rates divide by the time from the first pass's network clock
    reading to the second pass's disk clock reading. *)
Theorem successive_passes os1 os2 self snap1 snap2 :
  has_channels (history self) ->
  value_of (collect_snapshot os1) self = Return snap1 ->
  value_of (collect_snapshot os2) (state_after (collect_snapshot os1) self)
    = Return snap2 ->
  exists io1 io2,
    os_net_io_counters os1 = Return (Some io1) /\
    os_net_io_counters os2 = Return (Some io2) /\
    computes_rate (bytes_sent io1) (bytes_sent io2) (os_time_net os1)
      (os_time_net os2) (sent_speed (snap_network snap2)) /\
    computes_rate (bytes_recv io1) (bytes_recv io2) (os_time_net os1)
      (os_time_net os2) (recv_speed (snap_network snap2)) /\
    (forall d1 d2,
       os_disk_io_counters os1 = Return (Some d1) ->
       os_disk_io_counters os2 = Return (Some d2) ->
       computes_rate (read_bytes d1) (read_bytes d2) (os_time_net os1)
         (os_time_disk os2) (read_speed (snap_disk snap2)) /\
       computes_rate (write_bytes d1) (write_bytes d2) (os_time_net os1)
         (os_time_disk os2) (write_speed (snap_disk snap2))).
Proof.
  intros Hch H1 H2.
  destruct (collect_snapshot_rates os1 self snap1 Hch H1)
    as (io1 & _ & dio1 & Hio1 & Hdio1 & _ & _ & _ & Hn1 & Ht1 & Hd1).
  destruct (collect_snapshot_rates os2 _ snap2
              (has_channels_collect os1 self Hch) H2)
    as (io2 & prev & dio2 & Hio2 & Hdio2 & Hprev & [Hs Hr] & Hdisk & _).
  cbv zeta in Hs, Hr. rewrite Ht1 in Hs, Hr, Hdisk, Hprev.
  exists io1, io2. split; [exact Hio1|]. split; [exact Hio2|].
  assert (Hsame : Qltb 0 (os_time_net os2 - os_time_net os1) = true ->
                  prev = io1).
  { intros Hpos. specialize (Hprev Hpos). congruence. }
  split; [|split].
  - rewrite Hs.
    pose proof (computes_rate_code (bytes_sent io1) (bytes_sent io2)
                  (os_time_net os1) (os_time_net os2)) as Hc.
    destruct (Qltb 0 (os_time_net os2 - os_time_net os1));
      [rewrite Hsame by reflexivity|]; exact Hc.
  - rewrite Hr.
    pose proof (computes_rate_code (bytes_recv io1) (bytes_recv io2)
                  (os_time_net os1) (os_time_net os2)) as Hc.
    destruct (Qltb 0 (os_time_net os2 - os_time_net os1));
      [rewrite Hsame by reflexivity|]; exact Hc.
  - intros d1 d2 E1 E2. rewrite Hdio1 in E1. injection E1 as ->.
    rewrite Hdio2 in E2. injection E2 as ->. rewrite Hd1 in Hdisk.
    pose proof (disk_speeds_rates (os_time_net os1) (os_time_disk os2)
                  d2 d1) as Hrates.
    cbv zeta in Hrates. rewrite <- Hdisk in Hrates. exact Hrates.
Qed.

Lemma successive_passes_witness :
  exists snap2,
    value_of (collect_snapshot (sample_probe 4 5000 900))
      (state_after (collect_snapshot (sample_probe 2 3000 500))
         sample_monitor)
      = Return snap2 /\
    computes_rate 500 900 2 4 (sent_speed (snap_network snap2)).
Proof.
  eexists. split; [vm_compute; reflexivity|].
  destruct (successive_passes (sample_probe 2 3000 500)
              (sample_probe 4 5000 900) sample_monitor _ _
              sample_monitor_channels
              ltac:(vm_compute; reflexivity) ltac:(vm_compute; reflexivity))
    as (io1 & io2 & E1 & E2 & H & _).
  injection E1 as <-. injection E2 as <-. exact H.
Defined.

(** ** Missing counters and a failing network query *)

(** X4: when [psutil.net_io_counters()] returns [None], [get_network_info]
    raises [AttributeError]; the monitor is unchanged if the clock has
    advanced past [_prev_time], and otherwise [_prev_net_io] has already
    been overwritten with [None].  A monitor whose [_prev_net_io] is [None]
    raises [AttributeError] on every read whose clock has advanced, also
    when counters are read again, and keeps its state: it does not
    recover. *)
Theorem network_counters_none os self :
  (os_net_io_counters os = Return None ->
   exists e,
     exn_class e = "AttributeError" /\
     get_network_info os self =
       (Raise e,
        if Qltb 0 (os_time_net os - _prev_time self) then self
        else set_prev_time (os_time_net os) (set_prev_net_io None self))) /\
  (forall io,
     _prev_net_io self = None ->
     os_net_io_counters os = Return (Some io) ->
     (_prev_time self < os_time_net os)%Q ->
     exists e,
       exn_class e = "AttributeError" /\
       get_network_info os self = (Raise e, self)).
Proof.
  split.
  - intros H.
    exists (Exn "AttributeError" "'NoneType' object has no attribute").
    split; [reflexivity|].
    unfold get_network_info. run_method. rewrite H. cbn.
    destruct (Qltb 0 (os_time_net os - _prev_time self)); reflexivity.
  - intros io Hprev Hio Ht.
    exists (Exn "AttributeError" "'NoneType' object has no attribute").
    split; [reflexivity|].
    unfold get_network_info. run_method. rewrite Hio. cbn.
    apply time_delta_pos in Ht. rewrite Ht. cbn. rewrite Hprev. reflexivity.
Qed.

(** X5: when the network query raises in a pass whose CPU, memory and disk
    queries answered, [collect_snapshot] raises that exception having
    appended nothing, but [get_disk_info] has already replaced
    [_prev_disk_io] by the counters it read, while [_prev_time] still is
    that of the pass before. *)
Theorem network_error_after_disk os self e usage io :
  returns (os_cpu_percent os) -> returns (os_cpu_count os) ->
  returns (os_cpu_freq os) -> returns (os_per_cpu os) ->
  returns (os_virtual_memory os) -> returns (os_swap_memory os) ->
  os_disk_usage os = Return usage ->
  os_disk_io_counters os = Return (Some io) ->
  os_net_io_counters os = Raise e ->
  collect_snapshot os self = (Raise e, set_prev_disk_io (Some io) self) /\
  history (state_after (collect_snapshot os) self) = history self /\
  _prev_time (state_after (collect_snapshot os) self) = _prev_time self /\
  _prev_disk_io (state_after (collect_snapshot os) self) = Some io.
Proof.
  intros H1 H2 H3 H4 H5 H6 Hu Hio Hnet.
  assert (E : collect_snapshot os self
              = (Raise e, set_prev_disk_io (Some io) self)).
  { rewrite collect_snapshot_eq.
    destruct (get_cpu_info_returns os self H1 H2 H3 H4) as [cpu ->].
    destruct (get_memory_info_returns os self H5 H6) as [memory ->].
    rewrite (get_disk_info_eq os self usage (Some io) Hu Hio).
    cbv beta iota zeta.
    rewrite (get_network_info_raises os _ e Hnet). reflexivity. }
  unfold state_after. rewrite E. repeat split; reflexivity.
Qed.

Lemma network_error_after_disk_witness :
  _prev_disk_io
    (state_after (collect_snapshot (network_fails (sample_probe 2 3000 500)))
       sample_monitor)
  = Some {| read_bytes := 3000; write_bytes := 500 |} /\
  _prev_time
    (state_after (collect_snapshot (network_fails (sample_probe 2 3000 500)))
       sample_monitor)
  = _prev_time sample_monitor.
Proof.
  assert (R : forall A (a : A), returns (Return a))
    by (intros; eexists; reflexivity).
  pose proof (network_error_after_disk
                (network_fails (sample_probe 2 3000 500)) sample_monitor
                (Exn "OSError" "net_io_counters")
                {| du_total := 10; du_used := 5; du_free := 5;
                   du_percent := 50 |}
                {| read_bytes := 3000; write_bytes := 500 |}
                (R _ _) (R _ _) (R _ _) (R _ _) (R _ _) (R _ _)
                eq_refl eq_refl eq_refl)
    as (_ & _ & Ht & Hd).
  split; [exact Hd|exact Ht].
Defined.

(** ** The GPU reading *)

(** X6: whatever the outcome of the [nvidia-smi] run and whatever [float]
    accepts, a reading of [get_gpu_info] that is not available has 0 as
    usage, memory and temperature. *)
Theorem gpu_unavailable_is_zero float run :
  available (get_gpu_info float run) = false ->
  usage (get_gpu_info float run) = 0%Q /\
  memory (get_gpu_info float run) = 0%Q /\
  temperature (get_gpu_info float run) = 0%Q.
Proof.
  intros H. rewrite (get_gpu_info_unavailable float run H).
  repeat split; reflexivity.
Qed.

Lemma gpu_unavailable_is_zero_witness :
  usage (get_gpu_info Str.float
           (Return {| returncode := 9; stdout := "30, 1024, 45" |})) = 0%Q /\
  memory (get_gpu_info Str.float
            (Return {| returncode := 9; stdout := "30, 1024, 45" |})) = 0%Q /\
  temperature (get_gpu_info Str.float
                 (Return {| returncode := 9; stdout := "30, 1024, 45" |}))
    = 0%Q.
Proof.
  apply (gpu_unavailable_is_zero Str.float
           (Return {| returncode := 9; stdout := "30, 1024, 45" |})).
  vm_compute. reflexivity.
Defined.

(** X7: [get_gpu_info] returns the reading that is not available when the
    run of [nvidia-smi] raises (missing binary, timeout), when it exits with
    a non-zero code, and when its output, stripped and split at [", "], has
    fewer than three fields. *)
Theorem gpu_failures_unavailable float :
  (forall e, get_gpu_info float (Raise e) = gpu_unavailable) /\
  (forall result,
     returncode result <> 0 ->
     get_gpu_info float (Return result) = gpu_unavailable) /\
  (forall result,
     (length (Str.split ", " (Str.strip (stdout result))) < 3)%nat ->
     get_gpu_info float (Return result) = gpu_unavailable).
Proof. apply get_gpu_info_failures. Qed.

(** X8: with exit code 0 and three fields or more, [get_gpu_info] reads the
    first three fields in order and stops at the first one [float] rejects:
    the reading is marked available, the fields read before keep their
    values and the others are 0; when all three are read they are the
    usage, the memory and the temperature, and further fields are
    ignored. *)
Theorem gpu_fields_in_order float result v0 v1 v2 rest :
  returncode result = 0 ->
  Str.split ", " (Str.strip (stdout result)) = v0 :: v1 :: v2 :: rest ->
  let g := get_gpu_info float (Return result) in
  available g = true /\
  (float v0 = None -> usage g = 0%Q /\ memory g = 0%Q /\ temperature g = 0%Q) /\
  (forall u, float v0 = Some u -> float v1 = None ->
     usage g = u /\ memory g = 0%Q /\ temperature g = 0%Q) /\
  (forall u m, float v0 = Some u -> float v1 = Some m -> float v2 = None ->
     usage g = u /\ memory g = m /\ temperature g = 0%Q) /\
  (forall u m t,
     float v0 = Some u -> float v1 = Some m -> float v2 = Some t ->
     usage g = u /\ memory g = m /\ temperature g = t).
Proof.
  intros Hrc Hsplit. cbv zeta. unfold get_gpu_info.
  rewrite Hrc, Z.eqb_refl, Hsplit. cbn [length Nat.leb].
  unfold gpu_parse. cbn [nth].
  split; [|split; [|split; [|split]]].
  - destruct (float v0); [|reflexivity].
    destruct (float v1); [|reflexivity].
    destruct (float v2); reflexivity.
  - intros ->. repeat split; reflexivity.
  - intros u -> ->. repeat split; reflexivity.
  - intros u m -> -> ->. repeat split; reflexivity.
  - intros u m t -> -> ->. repeat split; reflexivity.
Qed.

Lemma gpu_fields_in_order_witness :
  let g :=
    get_gpu_info Str.float
      (Return {| returncode := 0;
                 stdout := "30, [N/A], 45, 7" ++ line_feed |}) in
  available g = true /\ usage g = 30%Q /\ memory g = 0%Q /\
  temperature g = 0%Q.
Proof.
  cbv zeta.
  destruct (gpu_fields_in_order Str.float
              {| returncode := 0; stdout := "30, [N/A], 45, 7" ++ line_feed |}
              "30" "[N/A]" "45" ["7"] eq_refl eq_refl)
    as (Ha & _ & H & _).
  destruct (H 30%Q eq_refl eq_refl) as (Hu & Hm & Ht).
  repeat split; assumption.
Defined.

(** Two GPUs: the third field holds the end of the first line and the start
    of the second, which [float] rejects. *)
Example gpu_two_lines :
  get_gpu_info Str.float
    (Return {| returncode := 0;
               stdout := "30, 1024, 45" ++ line_feed ++ "40, 2048, 50"
                         ++ line_feed |})
  = {| available := true; usage := 30; memory := 1024; temperature := 0 |}.
Proof. vm_compute. reflexivity. Qed.

(** ** The temperature reading *)

Lemma dict_set_fresh {V} key (value : V) d :
  key ∉ (fst <$> d) -> dict_set key value d = (d ++ [(key, value)])%list.
Proof.
  induction d as [|[k v] d IH]; intros H; [reflexivity|].
  cbn in H. apply not_elem_of_cons in H as [Hne H].
  cbn. destruct (String.eqb_spec k key) as [->|_]; [congruence|].
  rewrite IH by exact H. reflexivity.
Qed.

Lemma sensor_groups_app sensors entry :
  sensor_groups (sensors ++ [entry]) =
    (sensor_groups sensors ++
     match snd entry with
     | [] => []
     | _ => [(fst entry, TList (snd entry))]
     end)%list.
Proof.
  unfold sensor_groups. rewrite List.filter_app, map_app. f_equal.
  destruct entry as [name [|x l]]; reflexivity.
Qed.

Lemma sensor_groups_names sensors :
  forall name, name ∈ (fst <$> sensor_groups sensors) ->
               name ∈ (fst <$> sensors).
Proof.
  induction sensors as [|[n l] sensors IH]; intros name H; [exact H|].
  destruct l as [|x l].
  - cbn. apply elem_of_cons. right. apply IH. exact H.
  - unfold sensor_groups in H. cbn in H.
    apply elem_of_cons in H as [->|H]; cbn; [left|right; apply IH; exact H].
Qed.

Lemma temperature_fold (sensors : list (string * list Q)) :
  forall done : list (string * list Q),
  NoDup (fst <$> (done ++ sensors)%list) ->
  fold_left
    (fun temps entry =>
       match snd entry with
       | [] => temps
       | entries => dict_set (fst entry) (TList entries) temps
       end)
    sensors (sensor_groups done)
  = sensor_groups (done ++ sensors)%list.
Proof.
  induction sensors as [|entry sensors IH]; intros done Hnd.
  - rewrite app_nil_r. reflexivity.
  - cbn [fold_left].
    replace (done ++ entry :: sensors)%list
      with ((done ++ [entry]) ++ sensors)%list in *
      by (rewrite <- app_assoc; reflexivity).
    rewrite <- (IH (done ++ [entry])%list Hnd). f_equal.
    rewrite sensor_groups_app.
    destruct (snd entry) as [|x l] eqn:E; [rewrite app_nil_r; reflexivity|].
    rewrite dict_set_fresh; [reflexivity|].
    intros Hin. apply sensor_groups_names in Hin.
    rewrite !fmap_app in Hnd. apply NoDup_app in Hnd as [Hnd _].
    apply NoDup_app in Hnd as (_ & Hdis & _).
    apply (Hdis _ Hin). cbn. left.
Qed.

(** X9: [get_temperature_info] returns the empty dictionary when psutil has
    no [sensors_temperatures], the single entry ['error'] with the text of
    the exception when the query raises, and otherwise the sensor groups
    that have entries, each with the list of its readings, in the order of
    the query's dictionary; groups without entries are left out. *)
Theorem temperature_info_cases os :
  (os_has_sensors os = false -> get_temperature_info os = []) /\
  (forall e,
     os_has_sensors os = true -> os_sensors_temperatures os = Raise e ->
     get_temperature_info os = [("error", TStr (exn_str e))]) /\
  (forall sensors,
     os_has_sensors os = true ->
     os_sensors_temperatures os = Return sensors ->
     NoDup (fst <$> sensors) ->
     get_temperature_info os = sensor_groups sensors).
Proof.
  unfold get_temperature_info. split; [|split].
  - intros ->. reflexivity.
  - intros e -> ->. reflexivity.
  - intros sensors -> -> Hnd.
    apply (temperature_fold sensors []). exact Hnd.
Qed.

Lemma temperature_info_cases_witness :
  get_temperature_info (sample_probe 2 3000 500)
  = sensor_groups [("coretemp", [40%Q; 50%Q])].
Proof.
  apply (proj2 (proj2 (temperature_info_cases (sample_probe 2 3000 500)))).
  - reflexivity.
  - reflexivity.
  - cbn. apply (bool_decide_unpack _). vm_compute. reflexivity.
Defined.

Lemma Qsum_app (l1 l2 : list Q) : (Qsum (l1 ++ l2) == Qsum l1 + Qsum l2)%Q.
Proof.
  unfold Qsum at 1. rewrite fold_left_app. rewrite Qsum_from.
  reflexivity.
Qed.

Lemma temperature_totals_from (temps : temps_dict) : forall acc : Q * Z,
  let totals :=
    fold_left
      (fun acc item =>
         match snd item with
         | TList values =>
             ((fst acc + Qsum values)%Q, snd acc + Z.of_nat (length values))
         | TStr _ => acc
         end)
      temps acc in
  (fst totals == fst acc + Qsum (all_readings temps))%Q /\
  snd totals = snd acc + Z.of_nat (length (all_readings temps)).
Proof.
  induction temps as [|[name value] temps IH]; intros acc; cbv zeta.
  - cbn. split; [unfold Qsum; cbn; ring|lia].
  - cbn [fold_left]. destruct value as [values|text]; cbn [snd].
    + destruct (IH ((fst acc + Qsum values)%Q,
                    snd acc + Z.of_nat (length values))) as [H1 H2].
      cbv zeta in H1, H2. cbn [fst snd] in H1, H2.
      unfold all_readings. cbn [map concat snd].
      fold (all_readings temps). split.
      * rewrite H1, Qsum_app. ring.
      * rewrite H2, length_app. lia.
    + destruct (IH acc) as [H1 H2]. cbv zeta in H1, H2.
      unfold all_readings. cbn [map concat snd app].
      fold (all_readings temps). split; assumption.
Qed.

(** X10: the temperature that [collect_snapshot] stores in the history is
    the mean of all readings of all sensor groups of the dictionary; it is
    0 when the dictionary has the key ['error'] and when it has no
    reading. *)
Theorem average_temperature_mean temps :
  (dict_has "error" temps = true -> average_temperature temps = 0%Q) /\
  (dict_has "error" temps = false -> all_readings temps = [] ->
   (average_temperature temps == 0)%Q) /\
  (dict_has "error" temps = false -> all_readings temps <> [] ->
   (average_temperature temps == statistics.mean (all_readings temps))%Q).
Proof.
  unfold average_temperature. split; [|split].
  - intros ->. rewrite andb_false_r. reflexivity.
  - intros -> Hnone. cbn [negb]. rewrite andb_true_r.
    destruct temps as [|item temps]; [reflexivity|].
    destruct (temperature_totals_from (item :: temps) (0%Q, 0)) as [H1 H2].
    cbv zeta in H1, H2. cbn [fst snd] in H1, H2.
    unfold temperature_totals. rewrite H2, Hnone. cbn.
    rewrite H1, Hnone. unfold Qsum. cbn. ring.
  - intros -> Hsome. cbn [negb]. rewrite andb_true_r.
    destruct temps as [|item temps]; [exfalso; apply Hsome; reflexivity|].
    destruct (temperature_totals_from (item :: temps) (0%Q, 0)) as [H1 H2].
    cbv zeta in H1, H2. cbn [fst snd] in H1, H2.
    unfold temperature_totals. rewrite H2.
    assert (Hlen : (0 < length (all_readings (item :: temps)))%nat).
    { destruct (all_readings (item :: temps)); [congruence|cbn; lia]. }
    assert (Hpos : (0 <? 0 + Z.of_nat (length (all_readings (item :: temps))))
                   = true) by (apply Z.ltb_lt; lia).
    rewrite Hpos, H1. unfold statistics.mean, statistics.count.
    rewrite Z.add_0_l, Qplus_0_l. reflexivity.
Qed.

Lemma average_temperature_mean_witness :
  (average_temperature [("coretemp", TList [40%Q; 50%Q]);
                        ("acpitz", TList [30%Q])]
   == statistics.mean [40; 50; 30])%Q.
Proof.
  apply (proj2 (proj2 (average_temperature_mean
                         [("coretemp", TList [40%Q; 50%Q]);
                          ("acpitz", TList [30%Q])]))).
  - reflexivity.
  - discriminate.
Defined.

(** ** [format_bytes]: the units *)

(** X11: [format_bytes] prints a value below 1024, a negative one included,
    in B; a value from 1024 ^ k up to 1024 ^ (k + 1), for k from 1 to 4,
    divided k times by 1024 in the unit KB, MB, GB or TB; and a value from
    1024 ^ 5 on divided five times by 1024 in PB. *)
Theorem format_bytes_units (v : Q) :
  ((v < 1024)%Q -> format_bytes v = Fmt.fmt2 v ++ " B") /\
  ((1024 <= v)%Q -> (v < 1024 * 1024)%Q ->
   format_bytes v = Fmt.fmt2 (v / 1024) ++ " KB") /\
  ((1024 * 1024 <= v)%Q -> (v < 1024 * 1024 * 1024)%Q ->
   format_bytes v = Fmt.fmt2 (v / 1024 / 1024) ++ " MB") /\
  ((1024 * 1024 * 1024 <= v)%Q -> (v < 1024 * 1024 * 1024 * 1024)%Q ->
   format_bytes v = Fmt.fmt2 (v / 1024 / 1024 / 1024) ++ " GB") /\
  ((1024 * 1024 * 1024 * 1024 <= v)%Q ->
   (v < 1024 * 1024 * 1024 * 1024 * 1024)%Q ->
   format_bytes v = Fmt.fmt2 (v / 1024 / 1024 / 1024 / 1024) ++ " TB") /\
  ((1024 * 1024 * 1024 * 1024 * 1024 <= v)%Q ->
   format_bytes v
   = Fmt.fmt2 (v / 1024 / 1024 / 1024 / 1024 / 1024) ++ " PB").
Proof.
  unfold format_bytes, format_bytes_loop.
  repeat split; intros;
    repeat match goal with
           | |- context [Qlt_le_dec ?a ?b] =>
               destruct (Qlt_le_dec a b);
               try (exfalso; unfold Qdiv in *;
                    change (/ 1024)%Q with (1 # 1024)%Q in *; lra)
           end; reflexivity.
Qed.

Lemma format_bytes_units_witness :
  format_bytes (- (2048 # 1)) = Fmt.fmt2 (- (2048 # 1)) ++ " B".
Proof.
  apply (proj1 (format_bytes_units (- (2048 # 1)))). reflexivity.
Defined.

(** A rate that fell below zero is printed in B whatever its size, and a
    value just below a power of 1024 is printed as 1024.00 of the unit
    below. *)
Example format_bytes_negative : format_bytes (- (2048 # 1)) = "-2048.00 B".
Proof. vm_compute. reflexivity. Qed.

Example format_bytes_rounds_up :
  format_bytes (inject_Z (1024 * 1024 - 1)) = "1024.00 KB".
Proof. vm_compute. reflexivity. Qed.

(** * Further properties of the statistics table *)

Ltac in_channels :=
  unfold channels; rewrite !elem_of_cons; auto 20.

Lemma lockstep_total n h key :
  lockstep (S n) h -> key ∈ channels ->
  exists x l, h !!! key = x :: l.
Proof.
  intros H Hkey. destruct (H key Hkey) as (l & Hl & Hlen).
  rewrite (lookup_total_correct _ _ _ Hl).
  destruct l as [|x l]; [discriminate|]. eauto.
Qed.

Lemma to_mb_cons x l :
  to_mb (x :: l) = (x / inject_Z (1024 * 1024))%Q :: to_mb l.
Proof. reflexivity. Qed.

(** X12: on a history whose nine channels hold the same number of samples,
    [_generate_statistics] returns the empty table when there is no sample,
    and otherwise the header followed by exactly six rows of a label and
    four cells: CPU and memory in percent, and the disk read, disk write,
    network sent and network received rates divided by 1024 * 1024.  The
    temperature and GPU channels have no row. *)
Theorem statistics_table_rows h n :
  lockstep n h ->
  (n = 0%nat -> _generate_statistics h = []) /\
  ((0 < n)%nat ->
   _generate_statistics h =
     [["리소스"; "평균"; "최소"; "최대"; "표준편차"];
      "CPU 사용률 (%)" :: stats_cells (h !!! "cpu_percent");
      "메모리 사용률 (%)" :: stats_cells (h !!! "memory_percent");
      "디스크 읽기 (MB/s)" :: stats_cells (to_mb (h !!! "disk_read"));
      "디스크 쓰기 (MB/s)" :: stats_cells (to_mb (h !!! "disk_write"));
      "네트워크 송신 (MB/s)" :: stats_cells (to_mb (h !!! "net_sent"));
      "네트워크 수신 (MB/s)" :: stats_cells (to_mb (h !!! "net_recv"))] /\
   length (_generate_statistics h) = 7%nat /\
   Forall (fun row => length row = 5%nat) (_generate_statistics h)).
Proof.
  intros Hlock. split.
  - intros ->. unfold _generate_statistics.
    destruct (Hlock "timestamps") as (l & Hl & Hlen);
      [in_channels|].
    rewrite (lookup_total_correct _ _ _ Hl).
    destruct l; [reflexivity|discriminate].
  - intros Hpos. destruct n as [|n]; [lia|].
    assert (Heq : _generate_statistics h =
     [["리소스"; "평균"; "최소"; "최대"; "표준편차"];
      "CPU 사용률 (%)" :: stats_cells (h !!! "cpu_percent");
      "메모리 사용률 (%)" :: stats_cells (h !!! "memory_percent");
      "디스크 읽기 (MB/s)" :: stats_cells (to_mb (h !!! "disk_read"));
      "디스크 쓰기 (MB/s)" :: stats_cells (to_mb (h !!! "disk_write"));
      "네트워크 송신 (MB/s)" :: stats_cells (to_mb (h !!! "net_sent"));
      "네트워크 수신 (MB/s)" :: stats_cells (to_mb (h !!! "net_recv"))]).
    { unfold _generate_statistics.
      destruct (lockstep_total n h "timestamps" Hlock) as (x0 & l0 & ->);
        [in_channels|].
      destruct (lockstep_total n h "cpu_percent" Hlock) as (x1 & l1 & ->);
        [in_channels|].
      destruct (lockstep_total n h "memory_percent" Hlock) as (x2 & l2 & ->);
        [in_channels|].
      destruct (lockstep_total n h "disk_read" Hlock) as (x3 & l3 & ->);
        [in_channels|].
      destruct (lockstep_total n h "disk_write" Hlock) as (x4 & l4 & ->);
        [in_channels|].
      destruct (lockstep_total n h "net_sent" Hlock) as (x5 & l5 & ->);
        [in_channels|].
      destruct (lockstep_total n h "net_recv" Hlock) as (x6 & l6 & ->);
        [in_channels|].
      rewrite !to_mb_cons. reflexivity. }
    rewrite Heq. split; [reflexivity|]. split; [reflexivity|].
    repeat (apply Forall_cons; split; [reflexivity|]). apply Forall_nil_2.
Qed.

Lemma statistics_table_rows_witness :
  length
    (_generate_statistics
       (history (collect_all [sample_probe 1 3000 500] sample_monitor)))
  = 7%nat.
Proof.
  refine (proj1 (proj2 (proj2 (statistics_table_rows
            (history (collect_all [sample_probe 1 3000 500] sample_monitor))
            1 _) _))).
  - intros key Hkey. apply channels_cases in Hkey.
    repeat (destruct Hkey as [->|Hkey]); try subst key;
      vm_compute; eauto.
  - lia.
Defined.

(** ** Minimum, mean, maximum and variance *)

Lemma fold_min_le (rest : list Q) : forall m : Q,
  (fold_left (fun m y => if Qltb y m then y else m) rest m <= m)%Q /\
  forall y, y ∈ rest ->
    (fold_left (fun m y => if Qltb y m then y else m) rest m <= y)%Q.
Proof.
  induction rest as [|x rest IH]; intros m.
  - cbn. split; [apply Qle_refl|]. intros y Hy. inversion Hy.
  - cbn [fold_left].
    destruct (IH (if Qltb x m then x else m)) as [H1 H2].
    assert (Hm : ((if Qltb x m then x else m) <= m)%Q /\
                 ((if Qltb x m then x else m) <= x)%Q).
    { destruct (Qltb x m) eqn:E.
      - apply Qltb_lt in E. split; [apply Qlt_le_weak, E|apply Qle_refl].
      - apply Qltb_ge in E. split; [apply Qle_refl|exact E]. }
    split; [exact (Qle_trans _ _ _ H1 (proj1 Hm))|].
    intros y Hy. apply elem_of_cons in Hy as [->|Hy].
    + exact (Qle_trans _ _ _ H1 (proj2 Hm)).
    + apply H2, Hy.
Qed.

Lemma fold_max_ge (rest : list Q) : forall m : Q,
  (m <= fold_left (fun m y => if Qltb m y then y else m) rest m)%Q /\
  forall y, y ∈ rest ->
    (y <= fold_left (fun m y => if Qltb m y then y else m) rest m)%Q.
Proof.
  induction rest as [|x rest IH]; intros m.
  - cbn. split; [apply Qle_refl|]. intros y Hy. inversion Hy.
  - cbn [fold_left].
    destruct (IH (if Qltb m x then x else m)) as [H1 H2].
    assert (Hm : (m <= (if Qltb m x then x else m))%Q /\
                 (x <= (if Qltb m x then x else m))%Q).
    { destruct (Qltb m x) eqn:E.
      - apply Qltb_lt in E. split; [apply Qlt_le_weak, E|apply Qle_refl].
      - apply Qltb_ge in E. split; [apply Qle_refl|exact E]. }
    split; [exact (Qle_trans _ _ _ (proj1 Hm) H1)|].
    intros y Hy. apply elem_of_cons in Hy as [->|Hy].
    + exact (Qle_trans _ _ _ (proj2 Hm) H1).
    + apply H2, Hy.
Qed.

Lemma py_min_le (data : list Q) y : y ∈ data -> (py_min data <= y)%Q.
Proof.
  destruct data as [|x rest]; intros Hy; [inversion Hy|].
  unfold py_min. destruct (fold_min_le rest x) as [H1 H2].
  apply elem_of_cons in Hy as [->|Hy]; [exact H1|apply H2, Hy].
Qed.

Lemma py_max_ge (data : list Q) y : y ∈ data -> (y <= py_max data)%Q.
Proof.
  destruct data as [|x rest]; intros Hy; [inversion Hy|].
  unfold py_max. destruct (fold_max_ge rest x) as [H1 H2].
  apply elem_of_cons in Hy as [->|Hy]; [exact H1|apply H2, Hy].
Qed.

Lemma Qsum_bounds (a b : Q) (data : list Q) :
  (forall y, y ∈ data -> (a <= y)%Q /\ (y <= b)%Q) ->
  (statistics.count data * a <= Qsum data)%Q /\
  (Qsum data <= statistics.count data * b)%Q.
Proof.
  induction data as [|x data IH]; intros H.
  - unfold statistics.count, Qsum. cbn [length fold_left Z.of_nat].
    change (inject_Z (Z.of_nat 0)) with 0%Q. split; lra.
  - destruct IH as [H1 H2].
    { intros y Hy. apply H. apply elem_of_cons. right. exact Hy. }
    destruct (H x) as [Ha Hb]; [apply elem_of_cons; left; reflexivity|].
    rewrite Qsum_cons, count_cons. split; lra.
Qed.

Lemma squared_deviations_nonneg (m : Q) (data : list Q) :
  (0 <= squared_deviations m data)%Q.
Proof.
  unfold squared_deviations. induction data as [|x data IH].
  - unfold Qsum. cbn. lra.
  - cbn [map]. rewrite Qsum_cons.
    assert (Hsq : (0 <= (x - m) * (x - m))%Q).
    { destruct (Qlt_le_dec (x - m) 0) as [Hneg|Hpos].
      - assert (Heq : ((x - m) * (x - m) == (m - x) * (m - x))%Q) by ring.
        rewrite Heq. apply Qmult_le_0_compat; lra.
      - apply Qmult_le_0_compat; exact Hpos. }
    lra.
Qed.

(** X13: for a channel with at least one sample the mean printed in the
    statistics table lies between the minimum and the maximum printed with
    it, which bound every sample; and with at least two samples the variance
    whose square root is printed as the standard deviation is never
    negative. *)
Theorem statistics_bounds (data : list Q) :
  (0 < length data)%nat ->
  (forall y, y ∈ data -> (py_min data <= y)%Q /\ (y <= py_max data)%Q) /\
  (py_min data <= statistics.mean data)%Q /\
  (statistics.mean data <= py_max data)%Q /\
  (forall variance,
     statistics.variance data = Some variance -> (0 <= variance)%Q).
Proof.
  intros Hlen.
  assert (Hb : forall y, y ∈ data ->
                 (py_min data <= y)%Q /\ (y <= py_max data)%Q).
  { intros y Hy. split; [apply py_min_le|apply py_max_ge]; exact Hy. }
  pose proof (count_pos data Hlen) as Hc.
  destruct (Qsum_bounds (py_min data) (py_max data) data Hb) as [H1 H2].
  split; [exact Hb|]. split; [|split].
  - unfold statistics.mean. apply Qle_shift_div_l; [exact Hc|].
    rewrite Qmult_comm. exact H1.
  - unfold statistics.mean. apply Qle_shift_div_r; [exact Hc|].
    rewrite Qmult_comm. exact H2.
  - intros variance. unfold statistics.variance.
    destruct (length data <? 2)%nat eqn:E; [discriminate|].
    intros H. injection H as <-. apply Nat.ltb_ge in E.
    rewrite ss_squared_deviations by lia.
    apply Qle_shift_div_l.
    + unfold statistics.count.
      assert (Hz : (inject_Z 2 <= inject_Z (Z.of_nat (length data)))%Q)
        by (rewrite <- Zle_Qle; lia).
      change (inject_Z 2) with 2%Q in Hz. lra.
    + rewrite Qmult_0_l. apply squared_deviations_nonneg.
Qed.

Lemma statistics_bounds_witness :
  (py_min [10; 30; 20] <= statistics.mean [10; 30; 20])%Q /\
  (statistics.mean [10; 30; 20] <= py_max [10; 30; 20])%Q.
Proof.
  destruct (statistics_bounds [10; 30; 20]%Q) as (_ & H1 & H2 & _).
  - cbn. lia.
  - split; [exact H1|exact H2].
Defined.

(** * Further properties of the window *)

(** ** The display timer *)

Lemma update_display_idle os ui n :
  is_monitoring ui = false ->
  lockstep n (history (monitor ui)) ->
  match update_display os ui with
  | (Return _, ui') =>
      returns (value_of (collect_snapshot os) (monitor ui)) /\
      monitor ui' = state_after (collect_snapshot os) (monitor ui) /\
      lockstep (S n) (history (monitor ui')) /\ is_monitoring ui' = false
  | (Raise _, ui') =>
      lockstep n (history (monitor ui')) /\ is_monitoring ui' = false
  end.
Proof.
  intros Hidle Hlock. unfold update_display. rewrite Hidle.
  destruct (Hlock "timestamps") as (ts & Hts & _); [in_channels|].
  pose proof (collect_lockstep os (monitor ui) n ts Hlock Hts) as H.
  unfold value_of, state_after in *.
  destruct (collect_snapshot os (monitor ui)) as [[snap|e] m]; cbn in *.
  - repeat split; [eexists; reflexivity|apply H|exact Hidle].
  - rewrite H. split; [exact Hlock|exact Hidle].
Qed.

Lemma display_ticks_idle probes : forall ui n,
  is_monitoring ui = false ->
  lockstep n (history (monitor ui)) ->
  all_return probes (monitor ui) ->
  lockstep (n + length probes)
    (history (monitor (display_ticks probes ui))) /\
  monitor (display_ticks probes ui) = collect_all probes (monitor ui).
Proof.
  induction probes as [|os rest IH]; intros ui n Hidle Hlock Hall.
  - cbn. rewrite Nat.add_0_r. split; [exact Hlock|reflexivity].
  - destruct Hall as [[snap Hret] Hrest].
    pose proof (update_display_idle os ui n Hidle Hlock) as H.
    cbn [display_ticks collect_all length].
    destruct (update_display os ui) as [[[]|e] ui'] eqn:E.
    + destruct H as (_ & Hm & Hl & Hi). rewrite <- Hm in *.
      replace (n + S (length rest))%nat with (S n + length rest)%nat by lia.
      apply IH; assumption.
    + exfalso. revert E. unfold update_display. rewrite Hidle.
      unfold value_of in Hret.
      destruct (collect_snapshot os (monitor ui)) as [[s|e'] m];
        cbn in Hret; [discriminate|discriminate].
Qed.

(** X14: the display timer samples too.  While a session is monitoring,
    [update_display] leaves the monitor alone; while none is (before the
    first start, and again after a stop or a completion), every firing
    calls [collect_snapshot], so that each firing that returns adds one
    sample to all nine channels of the history the report is made from, and
    a firing in which [collect_snapshot] raises leaves the callback before
    the timer is armed again. *)
Theorem display_timer_samples os ui :
  (is_monitoring ui = true -> update_display os ui = (Return tt, ui)) /\
  (forall n,
     is_monitoring ui = false ->
     lockstep n (history (monitor ui)) ->
     match update_display os ui with
     | (Return _, ui') => lockstep (S n) (history (monitor ui'))
     | (Raise _, ui') => lockstep n (history (monitor ui'))
     end) /\
  (forall e,
     is_monitoring ui = false ->
     value_of (collect_snapshot os) (monitor ui) = Raise e ->
     fst (update_display os ui) = Raise e) /\
  (forall probes n,
     is_monitoring ui = false ->
     lockstep n (history (monitor ui)) ->
     all_return probes (monitor ui) ->
     lockstep (n + length probes)
       (history (monitor (display_ticks probes ui)))).
Proof.
  split; [|split; [|split]].
  - intros H. unfold update_display. rewrite H. reflexivity.
  - intros n Hidle Hlock.
    pose proof (update_display_idle os ui n Hidle Hlock) as H.
    destruct (update_display os ui) as [[[]|e] ui']; [apply H|apply H].
  - intros e Hidle Hraise. unfold update_display. rewrite Hidle.
    unfold value_of in Hraise.
    destruct (collect_snapshot os (monitor ui)) as [[s|e'] m];
      cbn in *; [discriminate|congruence].
  - intros probes n Hidle Hlock Hall.
    apply (display_ticks_idle probes ui n Hidle Hlock Hall).
Qed.

Lemma display_timer_samples_witness :
  lockstep 2
    (history
       (monitor
          (display_ticks [sample_probe 1 3000 500; sample_probe 2 4000 600]
             (MonitorUI_init sample_monitor)))).
Proof.
  apply (proj2 (proj2 (proj2 (display_timer_samples
           (sample_probe 1 3000 500) (MonitorUI_init sample_monitor))))
           [sample_probe 1 3000 500; sample_probe 2 4000 600] 0%nat).
  - reflexivity.
  - apply init_lockstep.
  - cbn [all_return MonitorUI_init monitor].
    repeat split; eexists; vm_compute; reflexivity.
Defined.

(** ** The sampling loop, stop and completion *)

Lemma loop_turn_running os now ui started n :
  is_monitoring ui = true ->
  recording_start_time ui = Some started ->
  lockstep n (history (monitor ui)) ->
  returns (value_of (collect_snapshot os) (monitor ui)) ->
  let ui' := monitoring_loop_turn os now ui in
  monitor ui' = state_after (collect_snapshot os) (monitor ui) /\
  lockstep (S n) (history (monitor ui')) /\
  start_button ui' = start_button ui /\
  stop_button ui' = stop_button ui /\
  pdf_button ui' = pdf_button ui /\
  ((recording_duration ui <= now - started)%Q ->
   is_monitoring ui' = false /\
   loops ui' = pred (loops ui) /\
   pending_complete ui' = S (pending_complete ui)) /\
  ((now - started < recording_duration ui)%Q ->
   is_monitoring ui' = true /\
   loops ui' = loops ui /\
   pending_complete ui' = pending_complete ui).
Proof.
  intros Hmon Hstart Hlock [snap Hret]. cbv zeta.
  destruct (Hlock "timestamps") as (ts & Hts & _); [in_channels|].
  pose proof (collect_lockstep os (monitor ui) n ts Hlock Hts) as H.
  rewrite Hret in H. destruct H as [Hl _].
  unfold monitoring_loop_turn. rewrite Hmon, Hstart.
  unfold value_of, state_after in *.
  destruct (collect_snapshot os (monitor ui)) as [r m]. cbn in *. subst r.
  destruct (Qle_bool (recording_duration ui - (now - started)) 0) eqn:E; cbn.
  - apply Qle_bool_iff in E.
    repeat split; try assumption; try reflexivity; exfalso; lra.
  - assert (Hgt : ~ (recording_duration ui - (now - started) <= 0)%Q).
    { intros Hle. apply Qle_bool_iff in Hle. congruence. }
    repeat split; try assumption; try reflexivity; exfalso; apply Hgt; lra.
Qed.

(** X15: a turn of [monitoring_loop] samples first and tests the duration
    afterwards.  In a turn taken while monitoring, with a pass that returns,
    the history gets one more sample in every case; if the recording
    duration has elapsed since the start, the turn also clears
    [is_monitoring], queues [on_monitoring_complete] and ends the thread,
    and otherwise the thread stays for its next turn.  The buttons are not
    touched by the loop. *)
Theorem loop_turn_samples_then_tests os now ui started n :
  is_monitoring ui = true ->
  recording_start_time ui = Some started ->
  lockstep n (history (monitor ui)) ->
  returns (value_of (collect_snapshot os) (monitor ui)) ->
  let ui' := monitoring_loop_turn os now ui in
  monitor ui' = state_after (collect_snapshot os) (monitor ui) /\
  lockstep (S n) (history (monitor ui')) /\
  start_button ui' = start_button ui /\
  stop_button ui' = stop_button ui /\
  pdf_button ui' = pdf_button ui /\
  ((recording_duration ui <= now - started)%Q ->
   is_monitoring ui' = false /\
   loops ui' = pred (loops ui) /\
   pending_complete ui' = S (pending_complete ui)) /\
  ((now - started < recording_duration ui)%Q ->
   is_monitoring ui' = true /\
   loops ui' = loops ui /\
   pending_complete ui' = pending_complete ui).
Proof. apply loop_turn_running. Qed.

Lemma loop_turn_samples_then_tests_witness :
  let ui := start_monitoring 0 0 (MonitorUI_init sample_monitor) in
  let ui' := monitoring_loop_turn (sample_probe 70 3000 500) 70 ui in
  lockstep 1 (history (monitor ui')) /\ is_monitoring ui' = false.
Proof.
  cbv zeta.
  assert (Hlock : lockstep 0
            (history (monitor
               (start_monitoring 0 0 (MonitorUI_init sample_monitor))))).
  { apply (clear_lockstep 0 0 sample_monitor). apply init_lockstep. }
  destruct (loop_turn_samples_then_tests (sample_probe 70 3000 500) 70
              (start_monitoring 0 0 (MonitorUI_init sample_monitor)) 0 0
              eq_refl eq_refl Hlock)
    as (_ & Hl & _ & _ & _ & Hdone & _).
  - eexists. vm_compute. reflexivity.
  - split; [exact Hl|]. apply Hdone. vm_compute. discriminate.
Defined.

(** X16: when [collect_snapshot] raises inside the loop the thread ends with
    [is_monitoring] still true: no completion is queued and no button is
    changed, so the window stays in its monitoring state, with the start
    button as it was, and without that loop. *)
Theorem loop_turn_exception os now ui e :
  is_monitoring ui = true ->
  has_channels (history (monitor ui)) ->
  value_of (collect_snapshot os) (monitor ui) = Raise e ->
  let ui' := monitoring_loop_turn os now ui in
  is_monitoring ui' = true /\
  loops ui' = pred (loops ui) /\
  pending_complete ui' = pending_complete ui /\
  start_button ui' = start_button ui /\
  stop_button ui' = stop_button ui /\
  pdf_button ui' = pdf_button ui /\
  history (monitor ui') = history (monitor ui).
Proof.
  intros Hmon Hch Hraise. cbv zeta. unfold monitoring_loop_turn.
  rewrite Hmon.
  pose proof (collect_snapshot_history os (monitor ui) Hch) as H.
  unfold value_of in Hraise.
  destruct (collect_snapshot os (monitor ui)) as [r m].
  cbn in Hraise. subst r. cbn.
  repeat split; assumption.
Qed.

Lemma loop_turn_exception_witness :
  let ui := start_monitoring 0 0 (MonitorUI_init sample_monitor) in
  let ui' :=
    monitoring_loop_turn (memory_fails (sample_probe 1 3000 500)) 1 ui in
  is_monitoring ui' = true /\ loops ui' = 0%nat /\
  start_button ui' = DISABLED.
Proof.
  cbv zeta.
  destruct (loop_turn_exception (memory_fails (sample_probe 1 3000 500)) 1
              (start_monitoring 0 0 (MonitorUI_init sample_monitor))
              (Exn "OSError" "virtual_memory") eq_refl)
    as (H1 & H2 & _ & H3 & _).
  - apply (lockstep_has_channels 0).
    apply (clear_lockstep 0 0 sample_monitor). apply init_lockstep.
  - vm_compute. reflexivity.
  - repeat split; assumption.
Defined.

(** X17: [stop_monitoring] clears [is_monitoring] and enables the start and
    report buttons at once, but it ends no thread: the loop is still there
    after the call, and it is its next turn that finds [is_monitoring] false
    and ends, without sampling and without queuing a completion. *)
Theorem stop_before_next_sample os now ui :
  let stopped := stop_monitoring ui in
  is_monitoring stopped = false /\
  loops stopped = loops ui /\
  start_button stopped = NORMAL /\
  stop_button stopped = DISABLED /\
  pdf_button stopped = NORMAL /\
  monitor stopped = monitor ui /\
  (let ui' := monitoring_loop_turn os now stopped in
   monitor ui' = monitor ui /\
   loops ui' = pred (loops ui) /\
   pending_complete ui' = pending_complete ui /\
   is_monitoring ui' = false).
Proof. cbv zeta. repeat split; reflexivity. Qed.

(** X18: the start button is enabled again as soon as stop is clicked, while
    the stopped loop has not yet taken the turn in which it would end.  A
    stop click followed by a start click before that turn therefore leaves
    the old loop alive beside the new one with [is_monitoring] true again:
    one loop more than before, and the old loop's next turn samples instead
    of ending. *)
Theorem stop_then_start_keeps_old_loop ui t now :
  stop_button ui = NORMAL ->
  let ui' := run [ClickStop; ClickStart t now] ui in
  is_monitoring ui' = true /\
  loops ui' = S (loops ui) /\
  start_button ui' = DISABLED /\
  (forall os now' n,
     lockstep n (history (monitor ui')) ->
     returns (value_of (collect_snapshot os) (monitor ui')) ->
     (now' - now < recording_duration ui)%Q ->
     loops (monitoring_loop_turn os now' ui') = S (loops ui) /\
     lockstep (S n) (history (monitor (monitoring_loop_turn os now' ui')))).
Proof.
  intros Hstop. cbv zeta. unfold run. cbn [fold_left step].
  rewrite Hstop.
  change (start_button (stop_monitoring ui)) with NORMAL. cbv iota.
  split; [reflexivity|]. split; [reflexivity|]. split; [reflexivity|].
  intros os now' n Hlock Hret Hlt.
  destruct (loop_turn_running os now'
              (start_monitoring t now (stop_monitoring ui)) now n
              eq_refl eq_refl Hlock Hret) as (_ & Hl & _ & _ & _ & _ & Hgo).
  split; [|exact Hl].
  destruct (Hgo Hlt) as (_ & -> & _). reflexivity.
Qed.

Lemma stop_then_start_keeps_old_loop_witness :
  let running := start_monitoring 0 0 (MonitorUI_init sample_monitor) in
  let ui' := run [ClickStop; ClickStart 1 1] running in
  is_monitoring ui' = true /\ loops ui' = 2%nat.
Proof.
  cbv zeta.
  destruct (stop_then_start_keeps_old_loop
              (start_monitoring 0 0 (MonitorUI_init sample_monitor)) 1 1
              eq_refl) as (H1 & H2 & _).
  split; [exact H1|exact H2].
Defined.

(** ** The states the window can reach *)

Lemma monitoring_loop_turn_fields os now ui :
  let ui' := monitoring_loop_turn os now ui in
  start_button ui' = start_button ui /\
  stop_button ui' = stop_button ui /\
  pdf_button ui' = pdf_button ui /\
  recording_start_time ui' = recording_start_time ui /\
  (is_monitoring ui' = true -> is_monitoring ui = true) /\
  (loops ui' <= loops ui)%nat.
Proof.
  cbv zeta. unfold monitoring_loop_turn.
  destruct (is_monitoring ui) eqn:Em;
    [|cbn; repeat split; try reflexivity; try lia; rewrite Em; auto].
  destruct (collect_snapshot os (monitor ui)) as [[snap|e] m];
    destruct (recording_start_time ui) as [started|] eqn:Er;
    try destruct (Qle_bool (recording_duration ui - (now - started)) 0);
    cbn; repeat split; try reflexivity; try assumption; try lia;
    rewrite ?Em; auto.
Qed.

Lemma step_buttons e ui :
  buttons_consistent ui -> started_before_loops ui ->
  buttons_consistent (step e ui) /\ started_before_loops (step e ui).
Proof.
  intros Hb Hs. destruct e as [t now| |os now|]; cbn [step].
  - destruct (start_button ui) eqn:E; [|split; assumption]. split.
    + right. repeat split; reflexivity.
    + intros _. cbn. eauto.
  - destruct (stop_button ui) eqn:E; [|split; assumption]. split.
    + left. split; reflexivity.
    + intros H. apply Hs. cbn in H. destruct H as [H|H];
        [discriminate|right; exact H].
  - destruct (loops ui) as [|k] eqn:E; [split; assumption|].
    destruct (monitoring_loop_turn_fields os now ui)
      as (H1 & H2 & H3 & H4 & H5 & H6).
    split.
    + unfold buttons_consistent. rewrite H1, H2, H3. exact Hb.
    + unfold started_before_loops. rewrite H4. intros [H|H].
      * apply Hs. left. apply H5, H.
      * apply Hs. right. lia.
  - destruct (pending_complete ui) as [|k]; [split; assumption|]. split.
    + left. split; reflexivity.
    + intros H. apply Hs. exact H.
Qed.

Lemma run_buttons events : forall ui,
  buttons_consistent ui -> started_before_loops ui ->
  buttons_consistent (run events ui) /\ started_before_loops (run events ui).
Proof.
  induction events as [|e rest IH]; intros ui Hb Hs; [split; assumption|].
  unfold run in *. cbn [fold_left].
  destruct (step_buttons e ui Hb Hs) as [Hb' Hs']. apply IH; assumption.
Qed.

(** X19: in every state the window reaches from its construction, through
    any sequence of start clicks, stop clicks, loop turns and completion
    callbacks, exactly one of the start and stop buttons is enabled, the
    report button is disabled whenever the start button is, and whenever
    monitoring is on or a loop is alive [recording_start_time] has been set,
    so that the loop's [datetime.now() - self.recording_start_time] has a
    start time to subtract. *)
Theorem window_invariant events m :
  let ui := run events (MonitorUI_init m) in
  ((start_button ui = NORMAL /\ stop_button ui = DISABLED) \/
   (start_button ui = DISABLED /\ stop_button ui = NORMAL /\
    pdf_button ui = DISABLED)) /\
  ((is_monitoring ui = true \/ (0 < loops ui)%nat) ->
   is_Some (recording_start_time ui)).
Proof.
  cbv zeta. apply (run_buttons events (MonitorUI_init m)).
  - left. split; reflexivity.
  - intros [H|H]; cbn in H; [discriminate|lia].
Qed.

(** ** The temperature and GPU graphs *)

Lemma collect_gpu_temperature os self gpu temps :
  has_channels (history self) ->
  history self !! "gpu_usage" = Some gpu ->
  history self !! "temperatures" = Some temps ->
  returns (value_of (collect_snapshot os) self) ->
  history (state_after (collect_snapshot os) self) !! "gpu_usage"
    = Some (gpu ++ [usage (get_gpu_info Str.float (os_nvidia_smi os))])%list /\
  history (state_after (collect_snapshot os) self) !! "temperatures"
    = Some (temps ++ [average_temperature (get_temperature_info os)])%list.
Proof.
  intros Hch Hg Ht [snap Hret]. unfold value_of, state_after in *.
  pose proof (collect_snapshot_history os self Hch) as H.
  destruct (collect_snapshot os self) as [r s'] eqn:E.
  cbn [fst snd] in *. subst r. destruct H as [_ ->].
  destruct (collect_snapshot_assembles os self snap s' E) as [Htemp Hgpu].
  rewrite !fold_append_item_lookup by apply sample_of_keys.
  cbn [assoc sample_of fst snd String.eqb Ascii.eqb Bool.eqb].
  rewrite Hg, Ht, Htemp, Hgpu. split; reflexivity.
Qed.

Lemma collect_all_gpu_temperature probes : forall self gpu temps,
  has_channels (history self) ->
  history self !! "gpu_usage" = Some gpu ->
  history self !! "temperatures" = Some temps ->
  all_return probes self ->
  history (collect_all probes self) !! "gpu_usage"
    = Some (gpu ++
            map (fun os => usage (get_gpu_info Str.float (os_nvidia_smi os)))
              probes)%list /\
  history (collect_all probes self) !! "temperatures"
    = Some (temps ++
            map (fun os => average_temperature (get_temperature_info os))
              probes)%list.
Proof.
  induction probes as [|os rest IH]; intros self gpu temps Hch Hg Ht Hall.
  - cbn. rewrite !app_nil_r. split; assumption.
  - destruct Hall as [Hret Hrest].
    destruct (collect_gpu_temperature os self gpu temps Hch Hg Ht Hret)
      as [Hg' Ht'].
    destruct (IH _ _ _ (has_channels_collect os self Hch) Hg' Ht' Hrest)
      as [H1 H2].
    cbn [collect_all map]. rewrite H1, H2, <- !app_assoc.
    split; reflexivity.
Qed.

Lemma draws_curve_spec (data : list Q) :
  draws_curve data = true <-> exists x, x ∈ data /\ (0 < x)%Q.
Proof.
  unfold draws_curve. rewrite existsb_exists. split.
  - intros (x & Hin & Hx). exists x. split.
    + apply list_elem_of_In. exact Hin.
    + apply Qltb_lt. exact Hx.
  - intros (x & Hin & Hx). exists x. split.
    + apply list_elem_of_In. exact Hin.
    + apply Qltb_lt. exact Hx.
Qed.

(** X20: after passes that return on an empty history, the GPU channel holds
    the usage of each pass's GPU reading and the temperature channel the
    average temperature of each pass's sensor reading, in order.  The GPU
    graph of the window and of the report therefore draws a curve exactly
    when some pass read a usage above 0, and shows its "not available" text
    otherwise: also for a GPU that was available and idle at 0 in every
    pass. *)
Theorem gpu_graph_of_session probes self :
  lockstep 0 (history self) ->
  all_return probes self ->
  exists gpu temps,
    history (collect_all probes self) !! "gpu_usage" = Some gpu /\
    history (collect_all probes self) !! "temperatures" = Some temps /\
    gpu = map (fun os => usage (get_gpu_info Str.float (os_nvidia_smi os)))
            probes /\
    temps = map (fun os => average_temperature (get_temperature_info os))
              probes /\
    (draws_curve gpu = true <->
     exists os, os ∈ probes /\
       (0 < usage (get_gpu_info Str.float (os_nvidia_smi os)))%Q) /\
    ((forall os, os ∈ probes ->
        (usage (get_gpu_info Str.float (os_nvidia_smi os)) <= 0)%Q) ->
     draws_curve gpu = false).
Proof.
  intros Hlock Hall.
  assert (Hempty : forall key, key ∈ channels ->
                     history self !! key = Some []).
  { intros key Hkey. destruct (Hlock key Hkey) as (l & Hl & Hlen).
    destruct l; [exact Hl|discriminate]. }
  destruct (collect_all_gpu_temperature probes self [] []
              (lockstep_has_channels 0 _ Hlock)
              (Hempty "gpu_usage" ltac:(in_channels))
              (Hempty "temperatures" ltac:(in_channels)) Hall) as [Hg Ht].
  cbn [app] in Hg, Ht.
  eexists _, _. split; [exact Hg|]. split; [exact Ht|].
  split; [reflexivity|]. split; [reflexivity|].
  assert (Hiff : draws_curve
                   (map (fun os =>
                           usage (get_gpu_info Str.float (os_nvidia_smi os)))
                      probes) = true <->
                 exists os, os ∈ probes /\
                   (0 < usage (get_gpu_info Str.float (os_nvidia_smi os)))%Q).
  { rewrite draws_curve_spec. split.
    - intros (x & Hin & Hx). apply list_elem_of_In, in_map_iff in Hin.
      destruct Hin as (os & <- & Hos). exists os. split; [|exact Hx].
      apply list_elem_of_In. exact Hos.
    - intros (os & Hos & Hx). eexists. split; [|exact Hx].
      apply list_elem_of_In, in_map_iff. exists os. split; [reflexivity|].
      apply list_elem_of_In. exact Hos. }
  split; [exact Hiff|].
  intros Hidle.
  destruct (draws_curve _) eqn:E; [|reflexivity].
  destruct (proj1 Hiff eq_refl) as (os & Hos & Hx).
  exfalso. apply (Qlt_not_le _ _ Hx). apply Hidle, Hos.
Qed.

Lemma gpu_graph_of_session_witness :
  exists gpu,
    history (collect_all [sample_probe 1 3000 500; sample_probe 2 4000 600]
               sample_monitor) !! "gpu_usage" = Some gpu /\
    draws_curve gpu = false.
Proof.
  destruct (gpu_graph_of_session
              [sample_probe 1 3000 500; sample_probe 2 4000 600]
              sample_monitor)
    as (gpu & temps & Hg & _ & Hgpu & _ & _ & Hidle).
  - apply init_lockstep.
  - cbn [all_return]. repeat split; eexists; vm_compute; reflexivity.
  - exists gpu. split; [exact Hg|]. rewrite Hgpu. vm_compute. reflexivity.
Defined.

(** * The summary of the report *)

Lemma last_map {A B} (f : A -> B) (l : list A) (d : A) :
  List.last (map f l) (f d) = f (List.last l d).
Proof.
  induction l as [|x l IH]; [reflexivity|].
  destruct l as [|y l]; [reflexivity|]. exact IH.
Qed.

(** X21: of a history filled by passes that returned on an empty history,
    [_generate_summary] reports as monitoring period the difference between
    the [datetime.now()] readings of the last and of the first pass, as
    number of data points the number of passes, and as start and end time
    those two readings; with no pass it returns the empty table. *)
Theorem summary_of_session strftime probes self :
  lockstep 0 (history self) ->
  all_return probes self ->
  let h := history (collect_all probes self) in
  (probes = [] -> _generate_summary strftime h = []) /\
  (forall os rest,
     probes = os :: rest ->
     let final := List.last probes os in
     _generate_summary strftime h =
       [["모니터링 기간"; fmt1 (os_now final - os_now os) ++ "초"];
        ["데이터 포인트"; Fmt.digits (Z.of_nat (length probes)) ++ "개"];
        ["시작 시간"; strftime (os_now os)];
        ["종료 시간"; strftime (os_now final)]]).
Proof.
  intros Hlock Hall. cbv zeta.
  assert (Hts : history self !! "timestamps" = Some []).
  { destruct (Hlock "timestamps") as (l & Hl & Hlen); [in_channels|].
    destruct l; [exact Hl|discriminate]. }
  destruct (collect_all_lockstep probes self 0 [] Hlock Hts Hall) as [_ Ht].
  cbn [app] in Ht. apply lookup_total_correct in Ht.
  unfold _generate_summary. rewrite Ht. split.
  - intros ->. reflexivity.
  - intros os rest ->.
    pose proof (last_map os_now (os :: rest) os) as Hlast.
    assert (Hlen : length (map os_now (os :: rest)) = length (os :: rest))
      by apply length_map.
    change (os_now <$> os :: rest) with (map os_now (os :: rest)).
    cbn [map] in *. cbv zeta. rewrite Hlast, Hlen. reflexivity.
Qed.

Lemma summary_of_session_witness :
  _generate_summary (fun _ => "date")
    (history (collect_all [sample_probe 10 3000 500; sample_probe 5 3000 500]
                sample_monitor))
  = [["모니터링 기간"; "-5.0초"]; ["데이터 포인트"; "2개"];
     ["시작 시간"; "date"]; ["종료 시간"; "date"]].
Proof.
  refine (proj2 (summary_of_session (fun _ => "date")
                   [sample_probe 10 3000 500; sample_probe 5 3000 500]
                   sample_monitor _ _) _ _ eq_refl).
  - apply init_lockstep.
  - cbn [all_return]. repeat split; eexists; vm_compute; reflexivity.
Defined.
